(** * AutoUncertainties: the [Uncertainty] value type

    A shallow embedding of [src/auto_uncertainties/uncertainty.py].

    The class pairs a nominal value with an error of the same shape and
    propagates the error through arithmetic.  The numeric values themselves
    (Python floats, NumPy scalars and arrays) belong to the numeric library
    the class is written against; here that library is an interface
    ([NumLib]), the methods of the class are written once over it, and a
    binary64 instance ([F64]) runs them on concrete inputs. *)

From Stdlib Require Import ZArith List Bool Floats.
From stdpp Require Import base option gmap.
Import ListNotations.

(** ** Exceptions and results *)

(** The exceptions that the modelled code and the numeric library raise. *)
Inductive exn : Type :=
  | AssertionError        (* [assert np.shape(value) == np.shape(err)] *)
  | NegativeStdDevError   (* raised by [__new__] on a negative error *)
  | ZeroDivisionError
  | OverflowError
  | ValueError
  | TypeError
  | AttributeError
  | IndexError
  | Exception_            (* the bare [raise Exception] of [__rtruediv__] *)
  | KeyError.             (* a dangling object reference in the store *)

(** A call either returns or raises. *)
Inductive res (A : Type) : Type :=
  | Ok (a : A)
  | Raise (e : exn).
Arguments Ok {A} a.
Arguments Raise {A} e.

(** Sequencing: the first exception raised ends the call. *)
Definition bind {A B} (m : res A) (k : A -> res B) : res B :=
  match m with
  | Ok a => k a
  | Raise e => Raise e
  end.

Declare Scope res_scope.
Delimit Scope res_scope with res.
Notation "x <- m ;; k" := (bind m (fun x => k))
  (at level 100, m at next level, right associativity) : res_scope.
Open Scope res_scope.

(** ** The numeric library, as the class uses it *)

(** What [uncertainty.py] asks of the values it stores: NumPy's [shape],
    [atleast_1d], [sqrt]; Python's arithmetic and comparison operators and
    [bool]; and [util.is_np_duck_array], which is imported from a module
    outside the modelled file.  Every operation may raise. *)
Class NumLib : Type := {
  val : Type;                         (* a scalar or an array *)
  num : Type;                         (* one element of an array *)
  bval : Type;                        (* what a comparison returns *)
  np_shape : val -> list nat;         (* [np.shape(v)] *)
  atleast_1d : val -> list num;       (* the elements of [np.atleast_1d(v)] *)
  num_lt0 : num -> bool;              (* [x < 0] on one element *)
  num_ge0 : num -> bool;              (* [x >= 0] on one element *)
  is_np_duck_array : val -> bool;     (* [is_np_duck_array(type(v))] *)
  lit_0 : val;                        (* the literal [0] *)
  lit_0_0 : val;                      (* the literal [0.0] *)
  np_NaN : val;                       (* [np.NaN] *)
  v_add : val -> val -> res val;      (* [a + b] *)
  v_sub : val -> val -> res val;      (* [a - b] *)
  v_mul : val -> val -> res val;      (* [a * b] *)
  v_truediv : val -> val -> res val;  (* [a / b] *)
  v_floordiv : val -> val -> res val; (* [a // b] *)
  v_mod : val -> val -> res val;      (* [a % b] *)
  v_square : val -> res val;          (* [a ** 2] *)
  np_sqrt : val -> res val;           (* [np.sqrt(a)] *)
  v_neg : val -> res val;             (* [operator.neg(a)] *)
  v_pos : val -> res val;             (* [operator.pos(a)] *)
  v_abs : val -> res val;             (* [abs(a)] *)
  v_copy : val -> res val;            (* [copy.copy(a)], [copy.deepcopy(a)] *)
  v_getitem : val -> Z -> res val;    (* [a[key]] for an integer key *)
  v_setitem : val -> nat -> val -> res val;  (* [a[i] = x], the array after it *)
  v_iter : val -> res (list val);     (* the items [for x in a] visits *)
  np_empty : nat -> val;              (* [np.empty(n)] *)
  v_real : val -> res val;            (* [a.real] *)
  v_imag : val -> res val;            (* [a.imag] *)
  v_eq : val -> val -> res bval;      (* [a == b] *)
  v_ne : val -> val -> res bval;      (* [a != b] *)
  v_lt : val -> val -> res bval;      (* [operator.lt(a, b)] *)
  v_le : val -> val -> res bval;
  v_ge : val -> val -> res bval;
  v_gt : val -> val -> res bval;
  v_bool : val -> res bool;           (* [bool(a)] *)
  b_bool : bval -> res bool;          (* the truth value an [if] takes *)
  b_is_duck_array : bval -> bool;     (* [is_np_duck_array(type(out))] *)
  b_not : bval -> res bval;           (* [not out] *)
  np_logical_not : bval -> res bval;  (* [np.logical_not(out)] *)
}.

(** ** The class *)

Section Uncertainty.
Context `{L : NumLib}.

(** An instance: the two attributes [__new__] sets. *)
Record Uncertainty : Type := mkU { _nom : val; _err : val }.

(** The other operand of a binary operator: [isinstance(other, Uncertainty)]
    or anything else. *)
Inductive operand : Type :=
  | OUnc (u : Uncertainty)
  | OPlain (v : val).

(** [np.any(np.atleast_1d(err) < 0)] *)
Definition any_negative (err : val) : bool :=
  existsb num_lt0 (atleast_1d err).

(** [Uncertainty.__new__]: the shape assertion comes first, then the sign
    check, then the two attributes are set. *)
Definition Uncertainty_new (value err : val) : res Uncertainty :=
  if negb (bool_decide (np_shape value = np_shape err)) then Raise AssertionError
  else if any_negative err then Raise NegativeStdDevError
  else Ok {| _nom := value; _err := err |}.

(** The properties [value], [nominal_value], [error], [std_dev]. *)
Definition value (self : Uncertainty) : val := _nom self.
Definition nominal_value (self : Uncertainty) : val := value self.
Definition error (self : Uncertainty) : val := _err self.
Definition std_dev (self : Uncertainty) : val := error self.

(** The property [relative] (and [rel]):
    [self._err / self._nom] if [self._nom != 0], else [np.NaN]. *)
Definition relative (self : Uncertainty) : res val :=
  c <- v_ne (_nom self) lit_0 ;;
  t <- b_bool c ;;
  if t then v_truediv (_err self) (_nom self) else Ok np_NaN.
Definition rel (self : Uncertainty) : res val := relative self.

(** [np.sqrt(a ** 2 + b ** 2)] *)
Definition quadrature (a b : val) : res val :=
  a2 <- v_square a ;;
  b2 <- v_square b ;;
  s <- v_add a2 b2 ;;
  np_sqrt s.

(** [np.sqrt(self.rel ** 2 + other.rel ** 2)], each operand squared as soon
    as it is read. *)
Definition rel_quadrature (self other : Uncertainty) : res val :=
  r1 <- rel self ;;
  s1 <- v_square r1 ;;
  r2 <- rel other ;;
  s2 <- v_square r2 ;;
  s <- v_add s1 s2 ;;
  np_sqrt s.

(** [__add__] (also [__radd__]) *)
Definition u_add (self : Uncertainty) (other : operand) : res Uncertainty :=
  match other with
  | OUnc o =>
      new_mag <- v_add (_nom self) (_nom o) ;;
      new_err <- quadrature (_err self) (_err o) ;;
      Uncertainty_new new_mag new_err
  | OPlain k =>
      new_mag <- v_add (_nom self) k ;;
      Uncertainty_new new_mag (_err self)
  end.

(** [__sub__] *)
Definition u_sub (self : Uncertainty) (other : operand) : res Uncertainty :=
  match other with
  | OUnc o =>
      new_mag <- v_sub (_nom self) (_nom o) ;;
      new_err <- quadrature (_err self) (_err o) ;;
      Uncertainty_new new_mag new_err
  | OPlain k =>
      new_mag <- v_sub (_nom self) k ;;
      Uncertainty_new new_mag (_err self)
  end.

(** [__neg__], [__pos__], [__abs__] *)
Definition u_neg (self : Uncertainty) : res Uncertainty :=
  n <- v_neg (_nom self) ;; Uncertainty_new n (_err self).
Definition u_pos (self : Uncertainty) : res Uncertainty :=
  n <- v_pos (_nom self) ;; Uncertainty_new n (_err self).
Definition u_abs (self : Uncertainty) : res Uncertainty :=
  n <- v_abs (_nom self) ;; Uncertainty_new n (_err self).

(** [__rsub__]: the body is the expression statement
    [-self.__sub__(other)]; nothing is returned, so the call evaluates to
    [None] once the expression has been evaluated. *)
Definition u_rsub (self : Uncertainty) (other : operand)
  : res (option Uncertainty) :=
  d <- u_sub self other ;;
  _ <- u_neg d ;;
  Ok None.

(** [__mul__] (also [__rmul__]) *)
Definition u_mul (self : Uncertainty) (other : operand) : res Uncertainty :=
  match other with
  | OUnc o =>
      new_mag <- v_mul (_nom self) (_nom o) ;;
      q <- rel_quadrature self o ;;
      new_err <- v_mul new_mag q ;;
      Uncertainty_new new_mag new_err
  | OPlain k =>
      new_mag <- v_mul (_nom self) k ;;
      new_err <- v_mul (_err self) k ;;
      Uncertainty_new new_mag new_err
  end.

(** [__truediv__] (also [__div__]) *)
Definition u_truediv (self : Uncertainty) (other : operand) : res Uncertainty :=
  match other with
  | OUnc o =>
      new_mag <- v_truediv (_nom self) (_nom o) ;;
      q <- rel_quadrature self o ;;
      new_err <- v_mul new_mag q ;;
      Uncertainty_new new_mag new_err
  | OPlain k =>
      new_mag <- v_truediv (_nom self) k ;;
      new_err <- v_truediv (_err self) k ;;
      Uncertainty_new new_mag new_err
  end.

(** [__rtruediv__] (also [__rdiv__]) *)
Definition u_rtruediv (self : Uncertainty) (other : operand) : res Uncertainty :=
  match other with
  | OUnc _ => Raise Exception_
  | OPlain k =>
      new_mag <- v_truediv k (_nom self) ;;
      r <- rel self ;;
      new_err <- v_mul new_mag r ;;
      Uncertainty_new new_mag new_err
  end.

(** [__floordiv__] *)
Definition u_floordiv (self : Uncertainty) (other : operand) : res Uncertainty :=
  match other with
  | OUnc o =>
      new_mag <- v_floordiv (_nom self) (_nom o) ;;
      Uncertainty_new new_mag lit_0_0
  | OPlain k =>
      new_mag <- v_floordiv (_nom self) k ;;
      Uncertainty_new new_mag lit_0_0
  end.

(** [__rfloordiv__] *)
Definition u_rfloordiv (self : Uncertainty) (other : operand) : res Uncertainty :=
  match other with
  | OUnc o => u_truediv o (OUnc self)
  | OPlain k =>
      new_mag <- v_floordiv k (_nom self) ;;
      Uncertainty_new new_mag lit_0_0
  end.

(** [__mod__] *)
Definition u_mod (self : Uncertainty) (other : operand) : res Uncertainty :=
  match other with
  | OUnc o =>
      new_mag <- v_mod (_nom self) (_nom o) ;;
      Uncertainty_new new_mag lit_0_0
  | OPlain k =>
      new_mag <- v_mod (_nom self) k ;;
      Uncertainty_new new_mag lit_0_0
  end.

(** [__rmod__] *)
Definition u_rmod (self : Uncertainty) (other : val) : res Uncertainty :=
  new_mag <- v_mod other (_nom self) ;;
  Uncertainty_new new_mag lit_0_0.

(** [__divmod__] *)
Definition u_divmod (self : Uncertainty) (other : operand)
  : res (Uncertainty * Uncertainty) :=
  q <- u_floordiv self other ;;
  r <- u_mod self other ;;
  Ok (q, r).

(** [__pow__]: the source applies [%] in both branches. *)
Definition u_pow (self : Uncertainty) (other : operand) : res Uncertainty :=
  match other with
  | OUnc o =>
      new_mag <- v_mod (_nom self) (_nom o) ;;
      Uncertainty_new new_mag lit_0_0
  | OPlain k =>
      new_mag <- v_mod (_nom self) k ;;
      Uncertainty_new new_mag lit_0_0
  end.

(** [__rpow__] *)
Definition u_rpow (self : Uncertainty) (other : val) : res Uncertainty :=
  new_mag <- v_mod other (_nom self) ;;
  Uncertainty_new new_mag lit_0_0.

(** [__copy__], [__deepcopy__] *)
Definition u_copy (self : Uncertainty) : res Uncertainty :=
  n <- v_copy (_nom self) ;;
  e <- v_copy (_err self) ;;
  Uncertainty_new n e.

(** [__getitem__]: a [TypeError] is re-raised as a [TypeError]. *)
Definition u_getitem (self : Uncertainty) (key : Z) : res Uncertainty :=
  n <- v_getitem (_nom self) key ;;
  e <- v_getitem (_err self) key ;;
  Uncertainty_new n e.

(** [__eq__] *)
Definition u_eq (self : Uncertainty) (other : operand) : res bval :=
  match other with
  | OUnc o => v_eq (_nom self) (_nom o)
  | OPlain k => v_eq (_nom self) k
  end.

(** [__ne__] *)
Definition u_ne (self : Uncertainty) (other : operand) : res bval :=
  out <- u_eq self other ;;
  if b_is_duck_array out then np_logical_not out else b_not out.

(** [compare], and the four orderings built from it. *)
Definition compare (self : Uncertainty) (other : operand)
    (op : val -> val -> res bval) : res bval :=
  match other with
  | OUnc o => op (_nom self) (_nom o)
  | OPlain k => op (_nom self) k
  end.

Definition u_lt (self : Uncertainty) (other : operand) := compare self other v_lt.
Definition u_le (self : Uncertainty) (other : operand) := compare self other v_le.
Definition u_ge (self : Uncertainty) (other : operand) := compare self other v_ge.
Definition u_gt (self : Uncertainty) (other : operand) := compare self other v_gt.

(** [__bool__] (also [__nonzero__]) *)
Definition u_bool (self : Uncertainty) : res bool := v_bool (_nom self).

(** The properties [real] and [imag]. *)
Definition u_real (self : Uncertainty) : res Uncertainty :=
  n <- v_real (_nom self) ;;
  e <- v_real (_err self) ;;
  Uncertainty_new n e.
Definition u_imag (self : Uncertainty) : res Uncertainty :=
  n <- v_imag (_nom self) ;;
  e <- v_imag (_err self) ;;
  Uncertainty_new n e.

(** [__iter__]: one construction per pair of [zip(self._nom, self._err)].
    The generator constructs lazily; each item is the outcome of its own
    construction. *)
Definition u_iter (self : Uncertainty) : res (list (res Uncertainty)) :=
  ns <- v_iter (_nom self) ;;
  es <- v_iter (_err self) ;;
  Ok (map (fun ve => Uncertainty_new (fst ve) (snd ve)) (combine ns es)).

(** The loop of [from_sequence]: [val[i] = seq_i._nom; err[i] = seq_i._err]
    for each item in turn. *)
Fixpoint fill_from (seq : list Uncertainty) (i : nat) (v e : val)
  : res (val * val) :=
  match seq with
  | [] => Ok (v, e)
  | seq_i :: rest =>
      v' <- v_setitem v i (_nom seq_i) ;;
      e' <- v_setitem e i (_err seq_i) ;;
      fill_from rest (S i) v' e'
  end.

(** [from_sequence] (also [from_list]) *)
Definition from_sequence (seq : list Uncertainty) : res Uncertainty :=
  let len_seq := length seq in
  ve <- fill_from seq 0 (np_empty len_seq) (np_empty len_seq) ;;
  Uncertainty_new (fst ve) (snd ve).
Definition from_list (u_list : list Uncertainty) : res Uncertainty :=
  from_sequence u_list.

(** ** Instances as objects: the in-place operators

    An in-place operator assigns to the attributes of [self], so which
    object a name refers to matters.  Instances live in a store, indexed by
    object identity. *)

Definition loc : Type := positive.
Local Abbreviation store := (gmap loc Uncertainty).

(** What a Python name holds when it is the right operand: a reference to
    an instance, or a plain numeric value. *)
Inductive pyobj : Type :=
  | PRef (l : loc)
  | PVal (v : val).

Definition load (h : store) (l : loc) : res Uncertainty :=
  match h !! l with
  | Some u => Ok u
  | None => Raise KeyError
  end.

Definition deref (h : store) (o : pyobj) : res operand :=
  match o with
  | PRef l => u <- load h l ;; Ok (OUnc u)
  | PVal v => Ok (OPlain v)
  end.

(** A constructed instance is a new object. *)
Definition alloc (h : store) (u : Uncertainty) : store * loc :=
  let l := fresh (dom h) in (<[l := u]> h, l).

(** [self._err = e] and [self._nom = n] *)
Definition set_err (h : store) (self : loc) (e : val) : store :=
  match h !! self with
  | Some u => <[self := {| _nom := _nom u; _err := e |}]> h
  | None => h
  end.
Definition set_nom (h : store) (self : loc) (n : val) : store :=
  match h !! self with
  | Some u => <[self := {| _nom := n; _err := _err u |}]> h
  | None => h
  end.

(** The tail the seven in-place operators share, [new] being the instance
    the plain operator returned:
    [if is_np_duck_array(type(self._nom)): self._err = new._err;
     self._nom = new._nom; return self; else: return new]. *)
Definition rebind_or_new (h : store) (self : loc) (s new : Uncertainty)
  : store * loc :=
  let (h1, lnew) := alloc h new in
  if is_np_duck_array (_nom s) then
    let h2 := set_err h1 self (_err new) in
    let h3 := set_nom h2 self (_nom new) in
    (h3, self)
  else (h1, lnew).

Definition inplace (op : Uncertainty -> operand -> res Uncertainty)
    (h : store) (self : loc) (other : pyobj) : res (store * loc) :=
  s <- load h self ;;
  o <- deref h other ;;
  new <- op s o ;;
  Ok (rebind_or_new h self s new).

(** [__iadd__]: [new = self + other], then the shared tail. *)
Definition u_iadd (h : store) (self : loc) (other : pyobj) : res (store * loc) :=
  s <- load h self ;;
  o <- deref h other ;;
  new <- u_add s o ;;
  Ok (rebind_or_new h self s new).

(** [__isub__], [__imul__], [__itruediv__] (also [__idiv__]),
    [__ifloordiv__], [__imod__], [__ipow__] *)
Definition u_isub := inplace u_sub.
Definition u_imul := inplace u_mul.
Definition u_itruediv := inplace u_truediv.
Definition u_ifloordiv := inplace u_floordiv.
Definition u_imod := inplace u_mod.
Definition u_ipow := inplace u_pow.

(** ** Where instances come from *)

(** The binary operators that return an instance. *)
Inductive binary_method : (Uncertainty -> operand -> res Uncertainty) -> Prop :=
  | M_add : binary_method u_add
  | M_sub : binary_method u_sub
  | M_mul : binary_method u_mul
  | M_truediv : binary_method u_truediv
  | M_rtruediv : binary_method u_rtruediv
  | M_floordiv : binary_method u_floordiv
  | M_rfloordiv : binary_method u_rfloordiv
  | M_mod : binary_method u_mod
  | M_pow : binary_method u_pow.

(** The reflected operators whose left operand is never an instance. *)
Inductive reflected_method : (Uncertainty -> val -> res Uncertainty) -> Prop :=
  | M_rmod : reflected_method u_rmod
  | M_rpow : reflected_method u_rpow.

(** The unary operators, copies and projections. *)
Inductive unary_method : (Uncertainty -> res Uncertainty) -> Prop :=
  | M_neg : unary_method u_neg
  | M_pos : unary_method u_pos
  | M_abs : unary_method u_abs
  | M_copy : unary_method u_copy
  | M_real : unary_method u_real
  | M_imag : unary_method u_imag.

(** The in-place operators. *)
Inductive inplace_method
  : (store -> loc -> pyobj -> res (store * loc)) -> Prop :=
  | M_iadd : inplace_method u_iadd
  | M_isub : inplace_method u_isub
  | M_imul : inplace_method u_imul
  | M_itruediv : inplace_method u_itruediv
  | M_ifloordiv : inplace_method u_ifloordiv
  | M_imod : inplace_method u_imod
  | M_ipow : inplace_method u_ipow.

(** [returned u]: the instance [u] is what a construction or a method of the
    class returned, whatever its arguments were. *)
Inductive returned : Uncertainty -> Prop :=
  | R_new v e u :
      Uncertainty_new v e = Ok u -> returned u
  | R_binary op self other u :
      binary_method op -> op self other = Ok u -> returned u
  | R_reflected op self other u :
      reflected_method op -> op self other = Ok u -> returned u
  | R_unary op self u :
      unary_method op -> op self = Ok u -> returned u
  | R_divmod_quot self other q r :
      u_divmod self other = Ok (q, r) -> returned q
  | R_divmod_rem self other q r :
      u_divmod self other = Ok (q, r) -> returned r
  | R_getitem self key u :
      u_getitem self key = Ok u -> returned u
  | R_iter self items u :
      u_iter self = Ok items -> In (Ok u) items -> returned u
  | R_from_sequence seq u :
      from_sequence seq = Ok u -> returned u
  | R_inplace op h self other h' l u :
      inplace_method op -> op h self other = Ok (h', l) ->
      h' !! l = Some u -> returned u.

End Uncertainty.

(** The one law of the ordering the statements below rely on: an element
    that is [>= 0] is not [< 0]. *)
Class NumLibLaws (L : NumLib) : Prop := {
  num_ge0_lt0 : forall x : num, num_ge0 x = true -> num_lt0 x = false
}.

(** ** A binary64 numeric library

    Python floats, NumPy [float64] scalars and one-dimensional [float64]
    arrays, with IEEE 754 binary64 arithmetic ([PrimFloat]).  The three
    kinds are closed under every operation the class applies.  An integer
    literal of the source ([0], [2]) or of an example is read as the float
    it converts to. *)

Module F64.

Open Scope float_scope.

Inductive pyval : Type :=
  | PyFloat (x : float)            (* a Python [float] *)
  | NpFloat (x : float)            (* a [numpy.float64] scalar *)
  | NdArray (a : list float).      (* a one-dimensional [numpy.ndarray] *)

Inductive pybool : Type :=
  | PyBool (b : bool)              (* a Python [bool] *)
  | NpBool (b : bool)              (* a [numpy.bool_] scalar *)
  | NdBool (a : list bool).        (* a one-dimensional array of booleans *)

(** The decimal literals of the examples, as the binary64 values Python
    reads them as. *)
Definition f0_1 : float := 0x1.999999999999ap-4.   (* 0.1 *)
Definition f0_2 : float := 0x1.999999999999ap-3.   (* 0.2 *)

(** *** binary64 helpers that [PrimFloat] does not provide *)

(** C's [copysign(0.0, w)] *)
Definition copysign0 (w : float) : float :=
  if get_sign w then neg_zero else zero.

(** A non-negative integer below 2^53 as a float. *)
Definition float_of_Z (z : Z) : float := of_uint63 (Uint63.of_Z z).

(** C's [fmod]: the exact remainder of [x / y] truncated toward zero, with
    the sign of [x]. *)
Definition fmod (x y : float) : float :=
  match Prim2SF x, Prim2SF y with
  | S754_nan, _ | _, S754_nan => nan
  | S754_infinity _, _ => nan
  | _, S754_zero _ => nan
  | S754_zero _, _ => x
  | _, S754_infinity _ => x
  | S754_finite sx mx ex, S754_finite _ my ey =>
      let e := Z.min ex ey in
      let X := (Z.pos mx * 2 ^ (ex - e))%Z in
      let Y := (Z.pos my * 2 ^ (ey - e))%Z in
      match (X mod Y)%Z with
      | Z.pos r => SF2Prim (S754_finite sx r e)
      | _ => if sx then neg_zero else zero
      end
  end.

(** C's [floor] *)
Definition ffloor (x : float) : float :=
  match Prim2SF x with
  | S754_finite s m e =>
      if (0 <=? e)%Z then x
      else
        let q := Z.shiftr (Z.pos m) (- e) in
        let exact := (Z.shiftl q (- e) =? Z.pos m)%Z in
        if s then (if exact then x else - float_of_Z (q + 1))
        else (if exact then x else float_of_Z q)
  | _ => x
  end.

(** The body that CPython's [float_divmod] and NumPy's [npy_divmod] share
    once the divisor is known to be nonzero: the floored quotient and the
    remainder with the sign of the divisor. *)
Definition divmod_nonzero (vx wx : float) : float * float :=
  let mod0 := fmod vx wx in
  let div0 := (vx - mod0) / wx in
  let '(mod1, div1) :=
    if negb (mod0 =? 0) then
      if xorb (wx <? 0) (mod0 <? 0) then (mod0 + wx, div0 - 1)
      else (mod0, div0)
    else (copysign0 wx, div0) in
  let floordiv :=
    if negb (div1 =? 0) then
      let f := ffloor div1 in
      if 0.5 <? div1 - f then f + 1 else f
    else copysign0 (vx / wx) in
  (floordiv, mod1).

(** *** Python's operators on two floats *)

Definition py_truediv (x y : float) : res float :=
  if y =? 0 then Raise ZeroDivisionError else Ok (x / y).
Definition py_floordiv (x y : float) : res float :=
  if y =? 0 then Raise ZeroDivisionError else Ok (fst (divmod_nonzero x y)).
Definition py_mod (x y : float) : res float :=
  if y =? 0 then Raise ZeroDivisionError else Ok (snd (divmod_nonzero x y)).

(** [x ** 2] on a Python float: [float_pow] hands finite operands to C's
    [pow] and raises [OverflowError] when the result overflows; the square
    is taken correctly rounded, which is the IEEE product [x * x]. *)
Definition py_square (x : float) : res float :=
  let y := x * x in
  if is_infinity y && negb (is_infinity x) then Raise OverflowError else Ok y.

(** *** NumPy's element operations: IEEE results, no exception *)

Definition np_floordiv (a b : float) : float :=
  if b =? 0 then a / b else fst (divmod_nonzero a b).
Definition np_mod (a b : float) : float :=
  if b =? 0 then fmod a b else snd (divmod_nonzero a b).

(** *** Lifting to values *)

(** Broadcasting two one-dimensional arrays: equal lengths, or one of them
    of length one. *)
Definition broadcast {A} (f : float -> float -> A) (xs ys : list float)
  : res (list A) :=
  if (length xs =? length ys)%nat then Ok (map (fun p => f (fst p) (snd p)) (combine xs ys))
  else match xs, ys with
       | [x], _ => Ok (map (f x) ys)
       | _, [y] => Ok (map (fun x => f x y) xs)
       | _, _ => Raise ValueError
       end.

(** A binary operator: Python's own on two Python floats, NumPy's as soon as
    a NumPy scalar or array takes part. *)
Definition binop (py : float -> float -> res float) (np : float -> float -> float)
    (a b : pyval) : res pyval :=
  match a, b with
  | PyFloat x, PyFloat y => r <- py x y ;; Ok (PyFloat r)
  | PyFloat x, NpFloat y | NpFloat x, PyFloat y | NpFloat x, NpFloat y =>
      Ok (NpFloat (np x y))
  | NdArray xs, PyFloat y | NdArray xs, NpFloat y =>
      Ok (NdArray (map (fun x => np x y) xs))
  | PyFloat x, NdArray ys | NpFloat x, NdArray ys =>
      Ok (NdArray (map (np x) ys))
  | NdArray xs, NdArray ys => r <- broadcast np xs ys ;; Ok (NdArray r)
  end.

(** A comparison: a Python [bool] on two Python floats, NumPy's otherwise. *)
Definition cmpop (op : float -> float -> bool) (a b : pyval) : res pybool :=
  match a, b with
  | PyFloat x, PyFloat y => Ok (PyBool (op x y))
  | PyFloat x, NpFloat y | NpFloat x, PyFloat y | NpFloat x, NpFloat y =>
      Ok (NpBool (op x y))
  | NdArray xs, PyFloat y | NdArray xs, NpFloat y =>
      Ok (NdBool (map (fun x => op x y) xs))
  | PyFloat x, NdArray ys | NpFloat x, NdArray ys =>
      Ok (NdBool (map (op x) ys))
  | NdArray xs, NdArray ys => r <- broadcast op xs ys ;; Ok (NdBool r)
  end.

(** A unary operator that keeps the kind of its operand. *)
Definition unop (f : float -> float) (a : pyval) : pyval :=
  match a with
  | PyFloat x => PyFloat (f x)
  | NpFloat x => NpFloat (f x)
  | NdArray xs => NdArray (map f xs)
  end.

Definition shape (a : pyval) : list nat :=
  match a with
  | PyFloat _ | NpFloat _ => []
  | NdArray xs => [length xs]
  end.

Definition elements (a : pyval) : list float :=
  match a with
  | PyFloat x | NpFloat x => [x]
  | NdArray xs => xs
  end.

(** Modelled from the spec: [util.is_np_duck_array] is imported from a module
    that is not part of the modelled file; the spec tells array-backed
    values, whose storage can be updated, from scalar-backed ones. *)
Definition is_duck (a : pyval) : bool :=
  match a with
  | NdArray _ => true
  | PyFloat _ | NpFloat _ => false
  end.

Definition square (a : pyval) : res pyval :=
  match a with
  | PyFloat x => y <- py_square x ;; Ok (PyFloat y)
  | NpFloat x => Ok (NpFloat (x * x))
  | NdArray xs => Ok (NdArray (map (fun x => x * x) xs))
  end.

(** [np.sqrt] returns a NumPy scalar for a scalar. *)
Definition sqrt_ (a : pyval) : res pyval :=
  match a with
  | PyFloat x | NpFloat x => Ok (NpFloat (PrimFloat.sqrt x))
  | NdArray xs => Ok (NdArray (map PrimFloat.sqrt xs))
  end.

(** [a[key]] with an integer key; a negative key counts from the end. *)
Definition getitem (a : pyval) (key : Z) : res pyval :=
  match a with
  | PyFloat _ => Raise TypeError
  | NpFloat _ => Raise IndexError
  | NdArray xs =>
      let n := Z.of_nat (length xs) in
      let k := if (key <? 0)%Z then (key + n)%Z else key in
      if ((k <? 0) || (n <=? k))%Z then Raise IndexError
      else match nth_error xs (Z.to_nat k) with
           | Some x => Ok (NpFloat x)
           | None => Raise IndexError
           end
  end.

(** [a[i] = x] on an array, for the indices and items [from_sequence] uses. *)
Definition setitem (a : pyval) (i : nat) (x : pyval) : res pyval :=
  match a, x with
  | NdArray xs, (PyFloat y | NpFloat y | NdArray [y]) =>
      if (i <? length xs)%nat then Ok (NdArray (<[i := y]> xs))
      else Raise IndexError
  | NdArray _, NdArray _ => Raise ValueError
  | _, _ => Raise TypeError
  end.

Definition iter (a : pyval) : res (list pyval) :=
  match a with
  | NdArray xs => Ok (map NpFloat xs)
  | PyFloat _ | NpFloat _ => Raise TypeError
  end.

(** [np.empty(n)]: the contents are whatever the memory held; every use in
    the class overwrites all of them. *)
Definition empty (n : nat) : pyval := NdArray (repeat 0 n).

(** [bool(a)]: of the one element when there is one, [False] for an empty
    array, and a [ValueError] for a longer one. *)
Definition truth (a : pyval) : res bool :=
  match a with
  | PyFloat x | NpFloat x | NdArray [x] => Ok (negb (x =? 0))
  | NdArray [] => Ok false
  | NdArray _ => Raise ValueError
  end.

Definition btruth (b : pybool) : res bool :=
  match b with
  | PyBool x | NpBool x | NdBool [x] => Ok x
  | NdBool [] => Ok false
  | NdBool _ => Raise ValueError
  end.

Definition bduck (b : pybool) : bool :=
  match b with
  | NdBool _ => true
  | PyBool _ | NpBool _ => false
  end.

Definition bnot (b : pybool) : res pybool :=
  t <- btruth b ;; Ok (PyBool (negb t)).

Definition logical_not (b : pybool) : res pybool :=
  match b with
  | PyBool x | NpBool x => Ok (NpBool (negb x))
  | NdBool xs => Ok (NdBool (map negb xs))
  end.

(** What the specification calls [x ** n], for a small natural exponent: the IEEE
    product of [n] copies of [x], which is the exact power whenever every
    partial product is representable.  The class itself never applies [**]
    with an exponent other than the literal [2]. *)
Fixpoint spec_power (x : float) (n : nat) : float :=
  match n with
  | O => 1
  | S k => x * spec_power x k
  end.

#[global] Instance f64 : NumLib := {|
  val := pyval;
  num := float;
  bval := pybool;
  np_shape := shape;
  atleast_1d := elements;
  num_lt0 := fun x => x <? 0;
  num_ge0 := fun x => 0 <=? x;
  is_np_duck_array := is_duck;
  lit_0 := PyFloat 0;
  lit_0_0 := PyFloat 0;
  np_NaN := PyFloat nan;
  v_add := binop (fun x y => Ok (x + y)) PrimFloat.add;
  v_sub := binop (fun x y => Ok (x - y)) PrimFloat.sub;
  v_mul := binop (fun x y => Ok (x * y)) PrimFloat.mul;
  v_truediv := binop py_truediv PrimFloat.div;
  v_floordiv := binop py_floordiv np_floordiv;
  v_mod := binop py_mod np_mod;
  v_square := square;
  np_sqrt := sqrt_;
  v_neg := fun a => Ok (unop PrimFloat.opp a);
  v_pos := fun a => Ok a;
  v_abs := fun a => Ok (unop PrimFloat.abs a);
  v_copy := fun a => Ok a;
  v_getitem := getitem;
  v_setitem := setitem;
  v_iter := iter;
  np_empty := empty;
  v_real := fun a => Ok a;
  v_imag := fun a => Ok (unop (fun _ => 0) a);
  v_eq := cmpop PrimFloat.eqb;
  v_ne := cmpop (fun x y => negb (x =? y));
  v_lt := cmpop PrimFloat.ltb;
  v_le := cmpop PrimFloat.leb;
  v_ge := cmpop (fun x y => y <=? x);
  v_gt := cmpop (fun x y => y <? x);
  v_bool := truth;
  b_bool := btruth;
  b_is_duck_array := bduck;
  b_not := bnot;
  np_logical_not := logical_not;
|}.

(** Wherever a [pyval] is used as a [val], the library is this one. *)
Canonical Structure f64.

(** *** Example inputs *)

(** [Uncertainty(nominal, err)] on two Python floats, and on two arrays. *)
Definition U (nominal err : float) : Uncertainty :=
  {| _nom := PyFloat nominal; _err := PyFloat err |}.
Definition UA (nominal err : list float) : Uncertainty :=
  {| _nom := NdArray nominal; _err := NdArray err |}.

(** A store with an array-backed instance at 1 and a scalar-backed one at 2. *)
Definition store0 : gmap loc Uncertainty :=
  <[2%positive := U 5 f0_1]> (<[1%positive := UA [1; 2] [f0_1; f0_2]]> ∅).

End F64.

(** ** The in-place operators and the operators they call *)

Section InPlacePairs.
Context `{L : NumLib}.

(** Each in-place operator beside the plain operator its first statement
    calls ([new = self - other] for [__isub__], and so on). *)
Inductive inplace_of
  : (gmap loc Uncertainty -> loc -> pyobj -> res (gmap loc Uncertainty * loc)) ->
    (Uncertainty -> operand -> res Uncertainty) -> Prop :=
  | IO_add : inplace_of u_iadd u_add
  | IO_sub : inplace_of u_isub u_sub
  | IO_mul : inplace_of u_imul u_mul
  | IO_truediv : inplace_of u_itruediv u_truediv
  | IO_floordiv : inplace_of u_ifloordiv u_floordiv
  | IO_mod : inplace_of u_imod u_mod
  | IO_pow : inplace_of u_ipow u_pow.

(** [built u]: some call of [__new__] returned [u]. *)
Definition built (u : Uncertainty) : Prop :=
  exists v e, Uncertainty_new v e = Ok u.

End InPlacePairs.

(** ** Methods that go through the array interface of the nominal

    [__len__], [tolist] and [flat] call methods of the stored values that
    only arrays and NumPy scalars have; they are written on the binary64
    library. *)

Module F64Methods.
Import F64.

(** [len(a)]: only an array has a length. *)
Definition len (a : pyval) : res nat :=
  match a with
  | NdArray xs => Ok (length xs)
  | PyFloat _ | NpFloat _ => Raise TypeError
  end.

(** [__len__] *)
Definition u_len (self : Uncertainty) : res nat := len (_nom self).

(** What [a.tolist()] returns: a Python float for a NumPy scalar, a list of
    Python floats for an array. *)
Inductive pylist : Type :=
  | LFloat (x : float)
  | LList (xs : list float).

(** [a.tolist()]; a Python float has no such method. *)
Definition tolist (a : pyval) : res pylist :=
  match a with
  | PyFloat _ => Raise AttributeError
  | NpFloat x => Ok (LFloat x)
  | NdArray xs => Ok (LList xs)
  end.

(** A Python list where [__new__] reads it: it has the shape and the
    elements of the array of the same items. *)
Definition as_value (p : pylist) : pyval :=
  match p with
  | LFloat x => PyFloat x
  | LList xs => NdArray xs
  end.

(** [n, e = item] in [for n, e in (nom, err)]: the item is unpacked into
    exactly two names. *)
Definition unpack2 (item : pylist) : res (float * float) :=
  match item with
  | LList [n; e] => Ok (n, e)
  | LList _ => Raise ValueError
  | LFloat _ => Raise TypeError
  end.

(** The list comprehension of [tolist]: for each of the two items of the
    pair [(nom, err)], unpack it and construct; the items of a
    one-dimensional array are floats, never lists. *)
Fixpoint tolist_items (items : list pylist) : res (list Uncertainty) :=
  match items with
  | [] => Ok []
  | item :: rest =>
      ne <- unpack2 item ;;
      u <- Uncertainty_new (PyFloat (fst ne)) (PyFloat (snd ne)) ;;
      us <- tolist_items rest ;;
      Ok (u :: us)
  end.

(** What [tolist] returns: one instance, or a list of instances. *)
Inductive tolist_result : Type :=
  | TOne (u : Uncertainty)
  | TMany (us : list Uncertainty).

(** [tolist]: an [AttributeError] is re-raised as an [AttributeError], any
    other exception passes. *)
Definition u_tolist (self : Uncertainty) : res tolist_result :=
  nom <- tolist (_nom self) ;;
  err <- tolist (_err self) ;;
  match nom with
  | LFloat _ =>
      u <- Uncertainty_new (as_value nom) (as_value err) ;; Ok (TOne u)
  | LList _ =>
      us <- tolist_items [nom; err] ;; Ok (TMany us)
  end.

(** [a.flat]: the items of the flat iterator; a Python float has no such
    attribute. *)
Definition flat (a : pyval) : res (list float) :=
  match a with
  | PyFloat _ => Raise AttributeError
  | NpFloat x => Ok [x]
  | NdArray xs => Ok xs
  end.

(** [u, v = it] in [for u, v in (self._nom.flat, self._err.flat)] *)
Definition unpack2_flat (it : list float) : res (float * float) :=
  match it with
  | [u; v] => Ok (u, v)
  | _ => Raise ValueError
  end.

(** A generator ends with the first exception its body raises. *)
Fixpoint run_generator {A} (steps : list (res A)) : list (res A) :=
  match steps with
  | [] => []
  | Ok a :: rest => Ok a :: run_generator rest
  | Raise e :: _ => [Raise e]
  end.

(** The property [flat], as the outcomes of the successive [next] calls on
    the generator it returns. *)
Definition u_flat (self : Uncertainty) : list (res Uncertainty) :=
  match (n <- flat (_nom self) ;; e <- flat (_err self) ;; Ok [n; e]) with
  | Raise ex => [Raise ex]
  | Ok its =>
      run_generator
        (map (fun it =>
                uv <- unpack2_flat it ;;
                Uncertainty_new (NpFloat (fst uv)) (NpFloat (snd uv)))
             its)
  end.

(** The nominal numbers and the error numbers of a sequence of instances,
    in order. *)
Definition noms (seq : list Uncertainty) : list float :=
  flat_map (fun u => elements (_nom u)) seq.
Definition errs (seq : list Uncertainty) : list float :=
  flat_map (fun u => elements (_err u)) seq.

(** An instance made of two scalars, the error not negative. *)
Definition scalar_instance (u : Uncertainty) : Prop :=
  shape (_nom u) = [] /\ shape (_err u) = [] /\ any_negative (_err u) = false.

(** *** Arrays as objects: [__setitem__] and [fill]

    These two methods write into the arrays the attributes refer to.  The
    values live in a heap; an instance is the pair of the places of its
    nominal and of its error; a call returns the heap it leaves behind
    together with its outcome, so that a write made before an exception
    stays. *)

Record uobj : Type := { nom_at : loc; err_at : loc }.

(** The [value] argument of [__setitem__]: an instance or anything else. *)
Inductive harg : Type :=
  | HUnc (o : uobj)
  | HPlain (v : pyval).

(** The index an integer key denotes in an array of [n] items. *)
Definition index_of (n : nat) (key : Z) : res nat :=
  let k := if (key <? 0)%Z then (key + Z.of_nat n)%Z else key in
  if ((k <? 0) || (Z.of_nat n <=? k))%Z then Raise IndexError
  else Ok (Z.to_nat k).

(** [a[key] = x]: the array after the assignment. *)
Definition setitem_key (a : pyval) (key : Z) (x : pyval) : res pyval :=
  match a with
  | PyFloat _ | NpFloat _ => Raise TypeError
  | NdArray xs =>
      i <- index_of (length xs) key ;;
      match x with
      | PyFloat y | NpFloat y | NdArray [y] => Ok (NdArray (<[i := y]> xs))
      | NdArray _ => Raise ValueError
      end
  end.

(** The instance an object denotes in a heap. *)
Definition snapshot (h : gmap loc pyval) (o : uobj) : res Uncertainty :=
  match h !! nom_at o, h !! err_at o with
  | Some n, Some e => Ok {| _nom := n; _err := e |}
  | _, _ => Raise KeyError
  end.

(** [__getitem__] on an object: an integer key yields new scalars. *)
Definition h_getitem (h : gmap loc pyval) (self : uobj) (key : Z)
  : res Uncertainty :=
  s <- snapshot h self ;; u_getitem s key.

(** [__setitem__]: the type test, the read [_ = self._nom[key]] (whose
    [ValueError] is re-raised as a [ValueError]), then the two writes
    [self._nom[key] = value._nom] and [self._err[key] = value._err]. *)
Definition u_setitem (h : gmap loc pyval) (self : uobj) (key : Z) (value : harg)
  : gmap loc pyval * res unit :=
  match value with
  | HPlain _ => (h, Raise ValueError)
  | HUnc v =>
      match h !! nom_at self, h !! nom_at v with
      | Some n, Some vn =>
          match getitem n key with
          | Raise ex => (h, Raise ex)
          | Ok _ =>
              match setitem_key n key vn with
              | Raise ex => (h, Raise ex)
              | Ok n' =>
                  let h1 := <[nom_at self := n']> h in
                  match h1 !! err_at self, h1 !! err_at v with
                  | Some e, Some ve =>
                      match setitem_key e key ve with
                      | Raise ex => (h1, Raise ex)
                      | Ok e' => (<[err_at self := e']> h1, Ok tt)
                      end
                  | _, _ => (h1, Raise KeyError)
                  end
              end
          end
      | _, _ => (h, Raise KeyError)
      end
  end.

(** [a.fill(x)]: the array after it; a NumPy scalar is left as it is and a
    Python float has no such method. *)
Definition fill_value (a : pyval) (x : float) : res pyval :=
  match a with
  | PyFloat _ => Raise AttributeError
  | NpFloat y => Ok (NpFloat y)
  | NdArray xs => Ok (NdArray (map (fun _ => x) xs))
  end.

(** [fill]: [self._nom.fill(value)], for a float [value]. *)
Definition u_fill (h : gmap loc pyval) (self : uobj) (x : float)
  : gmap loc pyval * res unit :=
  match h !! nom_at self with
  | Some n =>
      match fill_value n x with
      | Raise ex => (h, Raise ex)
      | Ok n' => (<[nom_at self := n']> h, Ok tt)
      end
  | None => (h, Raise KeyError)
  end.

(** *** Example objects *)

(** A heap with the arrays of an instance at 1 and 2 and the scalars of
    another at 3 and 4. *)
Definition heap0 : gmap loc pyval :=
  <[4%positive := PyFloat f0_1]>
    (<[3%positive := PyFloat 9]>
       (<[2%positive := NdArray [f0_1; f0_2]]>
          (<[1%positive := NdArray [1; 2]]> ∅))).
Definition objX : uobj := {| nom_at := 1%positive; err_at := 2%positive |}.
Definition objV : uobj := {| nom_at := 3%positive; err_at := 4%positive |}.

End F64Methods.

(** * Properties *)

(** ** Results *)

Lemma bind_Ok {A B} (m : res A) (k : A -> res B) (b : B) :
  bind m k = Ok b -> exists a, m = Ok a /\ k a = Ok b.
Proof. destruct m as [a | e]; simpl; [eauto | discriminate]. Qed.

(** Peel the successful binds off a hypothesis [H : ... = Ok _]. *)
Ltac bind_inv H :=
  repeat match type of H with
  | bind _ _ = Ok _ =>
      let a := fresh "a" in
      let Ha := fresh "Ha" in
      apply bind_Ok in H as (a & Ha & H)
  end.

Section Generic.
Context `{L : NumLib}.

Implicit Types (u s new : Uncertainty) (v e : val) (h : gmap loc Uncertainty)
  (l self : loc).

(** ** Construction *)

Lemma any_negative_false e :
  any_negative e = false <-> Forall (fun x => num_lt0 x = false) (atleast_1d e).
Proof.
  unfold any_negative. induction (atleast_1d e) as [| x xs IH]; simpl.
  - split; [constructor | reflexivity].
  - rewrite orb_false_iff, IH. split.
    + intros [Hx Hxs]. constructor; assumption.
    + intros Hall. inversion Hall; subst. split; assumption.
Qed.

Lemma any_negative_true e :
  any_negative e = true <-> Exists (fun x => num_lt0 x = true) (atleast_1d e).
Proof.
  unfold any_negative. induction (atleast_1d e) as [| x xs IH]; simpl.
  - split; [discriminate | intros Hex; inversion Hex].
  - rewrite orb_true_iff, IH. split.
    + intros [Hx | Hxs]; [left | right]; assumption.
    + intros Hex. inversion Hex; subst; [left | right]; assumption.
Qed.

(** What a successful construction says about its arguments and result. *)
Lemma Uncertainty_new_Ok v e u :
  Uncertainty_new v e = Ok u <->
  np_shape v = np_shape e /\ any_negative e = false /\ u = mkU v e.
Proof.
  unfold Uncertainty_new. case_bool_decide as Hs; simpl.
  - destruct (any_negative e); split.
    + discriminate.
    + intros (_ & ? & _). discriminate.
    + intros [= <-]. auto.
    + intros (_ & _ & ->). reflexivity.
  - split; [discriminate | intros (? & _); contradiction].
Qed.

Lemma Uncertainty_new_shape v e u :
  Uncertainty_new v e = Ok u -> np_shape (_nom u) = np_shape (_err u).
Proof. intros (Hs & _ & ->)%Uncertainty_new_Ok. exact Hs. Qed.

Lemma Uncertainty_new_mismatch v e :
  np_shape v <> np_shape e -> Uncertainty_new v e = Raise AssertionError.
Proof.
  intros Hs. unfold Uncertainty_new. case_bool_decide; [contradiction | reflexivity].
Qed.

(** ** Every method that returns an instance returns a constructed one *)

Ltac via_new H :=
  simpl in H; bind_inv H; eapply Uncertainty_new_shape; eassumption.

Lemma binary_method_shape op s other u :
  binary_method op -> op s other = Ok u ->
  np_shape (_nom u) = np_shape (_err u).
Proof.
  intros Hop H.
  destruct Hop; destruct other as [o | k];
    unfold u_add, u_sub, u_mul, u_truediv, u_rtruediv, u_floordiv,
      u_rfloordiv, u_truediv, u_mod, u_pow in H;
    first [discriminate H | via_new H].
Qed.

Lemma reflected_method_shape op s k u :
  reflected_method op -> op s k = Ok u ->
  np_shape (_nom u) = np_shape (_err u).
Proof. intros [] H; unfold u_rmod, u_rpow in H; via_new H. Qed.

Lemma unary_method_shape op s u :
  unary_method op -> op s = Ok u -> np_shape (_nom u) = np_shape (_err u).
Proof.
  intros [] H;
    unfold u_neg, u_pos, u_abs, u_copy, u_real, u_imag in H; via_new H.
Qed.

(** ** The store *)

Lemma alloc_fresh h u h1 l :
  alloc h u = (h1, l) -> h !! l = None /\ h1 = <[l := u]> h.
Proof.
  unfold alloc. intros [= <- <-]. split; [| reflexivity].
  apply not_elem_of_dom, is_fresh.
Qed.

(** The array branch of the shared tail: [self] now holds the attributes of
    [new]; every other object of the old store is as it was. *)
Lemma rebind_or_new_array h self s new :
  h !! self = Some s -> is_np_duck_array (_nom s) = true ->
  exists h', rebind_or_new h self s new = (h', self) /\
    h' !! self = Some new /\
    (forall l, l <> self -> is_Some (h !! l) -> h' !! l = h !! l).
Proof.
  intros Hself Hduck. unfold rebind_or_new.
  destruct (alloc h new) as [h1 lnew] eqn:Ha.
  apply alloc_fresh in Ha as [Hfresh ->]. rewrite Hduck.
  assert (lnew <> self) as Hne by congruence.
  eexists. split; [reflexivity |].
  assert (set_err (<[lnew := new]> h) self (_err new)
          = <[self := mkU (_nom s) (_err new)]> (<[lnew := new]> h)) as ->.
  { unfold set_err. rewrite lookup_insert_ne, Hself by exact Hne. reflexivity. }
  unfold set_nom. rewrite lookup_insert_eq. simpl. split.
  - rewrite lookup_insert_eq. destruct new; reflexivity.
  - intros l Hl [x Hx]. rewrite !lookup_insert_ne by congruence.
    reflexivity.
Qed.

(** The scalar branch: [new] is a new object and the old store is intact. *)
Lemma rebind_or_new_scalar h self s new :
  is_np_duck_array (_nom s) = false ->
  exists h' l', rebind_or_new h self s new = (h', l') /\
    h !! l' = None /\ h' !! l' = Some new /\
    (forall l, is_Some (h !! l) -> h' !! l = h !! l).
Proof.
  intros Hduck. unfold rebind_or_new.
  destruct (alloc h new) as [h1 lnew] eqn:Ha.
  apply alloc_fresh in Ha as [Hfresh ->]. rewrite Hduck.
  exists (<[lnew := new]> h), lnew. split; [reflexivity |].
  split; [exact Hfresh |]. split; [apply lookup_insert_eq |].
  intros l [x Hx]. rewrite lookup_insert_ne by congruence. reflexivity.
Qed.

Lemma u_iadd_inplace : u_iadd = inplace u_add.
Proof. reflexivity. Qed.

(** An in-place operator returns an object that holds what its plain
    operator returned. *)
Lemma inplace_returns op h self other h' l u :
  inplace op h self other = Ok (h', l) -> h' !! l = Some u ->
  exists s o, op s o = Ok u.
Proof.
  unfold inplace. intros H Hl. bind_inv H. injection H as H.
  rename a into s, a0 into o, a1 into new. exists s, o.
  unfold load in Ha. destruct (h !! self) as [s' |] eqn:Hself; [| discriminate].
  injection Ha as ->.
  destruct (is_np_duck_array (_nom s)) eqn:Hduck.
  - destruct (rebind_or_new_array h self s new Hself Hduck) as (h2 & E & Hn & _).
    rewrite E in H. injection H as <- <-. congruence.
  - destruct (rebind_or_new_scalar h self s new Hduck) as (h2 & l2 & E & _ & Hn & _).
    rewrite E in H. injection H as <- <-. congruence.
Qed.

Lemma inplace_method_shape op h self other h' l u :
  inplace_method op -> op h self other = Ok (h', l) -> h' !! l = Some u ->
  np_shape (_nom u) = np_shape (_err u).
Proof.
  intros Hop H Hl.
  destruct Hop; try rewrite u_iadd_inplace in H;
    destruct (inplace_returns _ _ _ _ _ _ _ H Hl) as (s & o & Hu);
    eapply binary_method_shape; try exact Hu; constructor.
Qed.

End Generic.

(** ** Statements over every numeric library *)

Section Statements.
Context `{L : NumLib}.

Implicit Types (u s new X : Uncertainty) (v e x y k : val)
  (h : gmap loc Uncertainty) (l self : loc).

Lemma u_divmod_shape s other q r :
  u_divmod s other = Ok (q, r) ->
  np_shape (_nom q) = np_shape (_err q) /\ np_shape (_nom r) = np_shape (_err r).
Proof.
  unfold u_divmod. intros H. bind_inv H. injection H as <- <-.
  split; eapply binary_method_shape; try eassumption; constructor.
Qed.

Lemma u_getitem_shape s key u :
  u_getitem s key = Ok u -> np_shape (_nom u) = np_shape (_err u).
Proof.
  unfold u_getitem. intros H. bind_inv H.
  eapply Uncertainty_new_shape; eassumption.
Qed.

Lemma u_iter_shape s items u :
  u_iter s = Ok items -> In (Ok u) items ->
  np_shape (_nom u) = np_shape (_err u).
Proof.
  unfold u_iter. intros H Hin. bind_inv H. injection H as <-.
  apply in_map_iff in Hin as ([n e] & Hnew & _).
  eapply Uncertainty_new_shape; eassumption.
Qed.

Lemma from_sequence_shape seq u :
  from_sequence seq = Ok u -> np_shape (_nom u) = np_shape (_err u).
Proof.
  unfold from_sequence. intros H. bind_inv H.
  eapply Uncertainty_new_shape; eassumption.
Qed.

(** The product with a plain operand is the construction from the two
    products, whatever that construction does. *)
Lemma u_mul_plain X k m e' :
  v_mul (_nom X) k = Ok m -> v_mul (_err X) k = Ok e' ->
  u_mul X (OPlain k) = Uncertainty_new m e'.
Proof. intros Hm He. unfold u_mul. rewrite Hm, He. reflexivity. Qed.

(** Power is modulo, operand for operand. *)
Lemma u_pow_is_u_mod X (other : operand) : u_pow X other = u_mod X other.
Proof. destruct other; reflexivity. Qed.

(** C1: for every (nominal, error) pair with
    [shape(nominal) == shape(error)] and every element of the error
    non-negative, the construction succeeds, and the [value] and [error]
    accessors of the instance return exactly the nominal and the error that
    were passed in. *)
Theorem C1_construction_roundtrip `{!NumLibLaws L} (nominal err : val) :
  np_shape nominal = np_shape err ->
  Forall (fun a => num_ge0 a = true) (atleast_1d err) ->
  exists u, Uncertainty_new nominal err = Ok u /\
            value u = nominal /\ error u = err.
Proof.
  intros Hshape Hge. exists (mkU nominal err). split; [| split; reflexivity].
  apply Uncertainty_new_Ok. split; [exact Hshape |]. split; [| reflexivity].
  apply any_negative_false.
  induction Hge as [| a rest Ha _ IH]; constructor.
  - apply num_ge0_lt0, Ha.
  - exact IH.
Qed.

(** C2, amended: for every (nominal, error) pair in which at least one
    element of the error is negative, the construction produces no instance:
    it raises [NegativeStdDevError] when the two shapes are equal, and the
    shape assertion fails first ([AssertionError]) when they differ. *)
Theorem C2_negative_error_rejected (nominal err : val) :
  Exists (fun a => num_lt0 a = true) (atleast_1d err) ->
  Uncertainty_new nominal err =
    Raise (if bool_decide (np_shape nominal = np_shape err)
           then NegativeStdDevError else AssertionError).
Proof.
  intros Hneg%any_negative_true. unfold Uncertainty_new.
  case_bool_decide; simpl; [rewrite Hneg |]; reflexivity.
Qed.

(** C7: every instance that a construction or a method of the class
    returns has [shape(nominal) == shape(error)], and a construction from
    two values of different shapes fails the shape assertion
    ([AssertionError]) instead of returning an instance. *)
Theorem C7_shape_invariant :
  (forall u, returned u -> np_shape (_nom u) = np_shape (_err u)) /\
  (forall v e, np_shape v <> np_shape e ->
     Uncertainty_new v e = Raise AssertionError).
Proof.
  split.
  - intros u Hu. destruct Hu.
    + eapply Uncertainty_new_shape; eassumption.
    + eapply binary_method_shape; eassumption.
    + eapply reflected_method_shape; eassumption.
    + eapply unary_method_shape; eassumption.
    + eapply (proj1 (u_divmod_shape _ _ _ _ ltac:(eassumption))).
    + eapply (proj2 (u_divmod_shape _ _ _ _ ltac:(eassumption))).
    + eapply u_getitem_shape; eassumption.
    + eapply u_iter_shape; eassumption.
    + eapply from_sequence_shape; eassumption.
    + eapply inplace_method_shape; eassumption.
  - apply Uncertainty_new_mismatch.
Qed.

(** C8: let [X] be the instance at [self] and let [X + y] evaluate to
    [new].  When the nominal of [X] is array-backed, [X += y] returns
    [self] itself, and the object at [self] then holds the nominal and the
    error of [new], so every reference to it observes them; no other object
    changes.  When the nominal is scalar-backed, [X += y] returns a new
    object holding [new], and [X] and every other object are unchanged. *)
Theorem C8_iadd_in_place h self (y : pyobj) X (o : operand) new :
  h !! self = Some X -> deref h y = Ok o -> u_add X o = Ok new ->
  (is_np_duck_array (_nom X) = true ->
     exists h', u_iadd h self y = Ok (h', self) /\
       h' !! self = Some new /\
       (forall l, l <> self -> is_Some (h !! l) -> h' !! l = h !! l)) /\
  (is_np_duck_array (_nom X) = false ->
     exists h' l', u_iadd h self y = Ok (h', l') /\
       l' <> self /\ h !! l' = None /\ h' !! l' = Some new /\
       h' !! self = Some X /\
       (forall l, is_Some (h !! l) -> h' !! l = h !! l)).
Proof.
  intros Hself Hy Hadd.
  assert (u_iadd h self y = Ok (rebind_or_new h self X new)) as Hrun.
  { unfold u_iadd, load. rewrite Hself. simpl. rewrite Hy. simpl.
    rewrite Hadd. reflexivity. }
  split; intros Hduck.
  - destruct (rebind_or_new_array h self X new Hself Hduck) as (h' & E & Hn & Hfr).
    exists h'. rewrite Hrun, E. auto.
  - destruct (rebind_or_new_scalar h self X new Hduck)
      as (h' & l' & E & Hfresh & Hn & Hfr).
    exists h', l'. rewrite Hrun, E. repeat split; auto.
    + congruence.
    + rewrite Hfr by eauto. exact Hself.
Qed.

(** When [X + y] raises, [X += y] raises the same exception. *)
Lemma u_iadd_raises h self (y : pyobj) X (o : operand) (ex : exn) :
  h !! self = Some X -> deref h y = Ok o -> u_add X o = Raise ex ->
  u_iadd h self y = Raise ex.
Proof.
  intros Hself Hy Hadd. unfold u_iadd, load. rewrite Hself. simpl.
  rewrite Hy. simpl. rewrite Hadd. reflexivity.
Qed.

(** C9: for every instance [X] and every plain operand [y], the reflected
    subtraction never returns an instance; whenever the difference and its
    negation can be computed, they are, and the call returns [None]. *)
Theorem C9_rsub_returns_None X y :
  (forall u, u_rsub X (OPlain y) <> Ok (Some u)) /\
  (forall d n, u_sub X (OPlain y) = Ok d -> u_neg d = Ok n ->
     u_rsub X (OPlain y) = Ok None).
Proof.
  split.
  - intros u H. unfold u_rsub in H. bind_inv H. discriminate H.
  - intros d n Hd Hn. unfold u_rsub. rewrite Hd. simpl. rewrite Hn. reflexivity.
Qed.

End Statements.

(** ** Statements on binary64 values *)

Import F64.
Local Open Scope float_scope.

(** On binary64, [0 <= x] excludes [x < 0] (for a NaN both are false). *)
Lemma leb0_ltb0 (x : float) : (0 <=? x) = true -> (x <? 0) = false.
Proof.
  rewrite leb_spec, ltb_spec.
  destruct (Prim2SF x) as [s | s | | s m e]; try destruct s;
    vm_compute; congruence.
Qed.

#[global] Instance f64_laws : NumLibLaws f64.
Proof. constructor. exact leb0_ltb0. Qed.

(** Multiplying by a scalar never raises and keeps the shape. *)
Lemma v_mul_scalar (x k : pyval) :
  shape k = [] -> exists m, v_mul x k = Ok m /\ shape m = shape x.
Proof.
  intros Hk. destruct x as [a | a | xs], k as [b | b | ys];
    try discriminate Hk; simpl; eexists; (split; [reflexivity |]);
    simpl; rewrite ?length_map; reflexivity.
Qed.

Lemma C1_witness :
  exists u, Uncertainty_new (NdArray [1; 2]) (NdArray [f0_1; 0]) = Ok u /\
            value u = NdArray [1; 2] /\ error u = NdArray [f0_1; 0].
Proof.
  apply (C1_construction_roundtrip (L := f64) (NdArray [1; 2]) (NdArray [f0_1; 0])).
  - reflexivity.
  - repeat constructor.
Defined.

(** C2 as stated fails: a negative error of another shape than the nominal
    is rejected by the shape assertion, not by [NegativeStdDevError]. *)
Lemma C2_counterexample :
  Exists (fun a => num_lt0 a = true) (atleast_1d (NdArray [-1])) /\
  Uncertainty_new (PyFloat 1) (NdArray [-1]) = Raise AssertionError /\
  Uncertainty_new (PyFloat 1) (NdArray [-1]) <> Raise NegativeStdDevError.
Proof. split; [left; reflexivity | split; [reflexivity | discriminate]]. Qed.

Lemma C2_witness :
  Uncertainty_new (NdArray [1; 2]) (NdArray [f0_1; -1]) = Raise NegativeStdDevError.
Proof.
  apply (C2_negative_error_rejected (L := f64) (NdArray [1; 2]) (NdArray [f0_1; -1])).
  right. left. reflexivity.
Defined.

(** The division of the spec's example: nominal [1.0] and error
    [sqrt((0.1/2)^2 + (0.1/2)^2)]. *)
Lemma u_truediv_example :
  u_truediv (U 2 f0_1) (OUnc (U 2 f0_1)) =
    Ok {| _nom := PyFloat 1;
          _err := NpFloat (sqrt ((f0_1 / 2) * (f0_1 / 2) + (f0_1 / 2) * (f0_1 / 2))) |}.
Proof. reflexivity. Qed.

(** C3 at a negative quotient: with [x = -2.0] and [y = 2.0], both nonzero,
    the error the division computes is [(x/y) * sqrt(...)], which is
    negative, and the construction of the result raises
    [NegativeStdDevError]; no instance with a non-negative error is
    returned. *)
Theorem C3_truediv_negative_quotient :
  v_truediv (PyFloat (-2)) (PyFloat 2) = Ok (PyFloat (-1)) /\
  u_truediv (U (-2) f0_1) (OUnc (U 2 f0_1)) = Raise NegativeStdDevError.
Proof. split; reflexivity. Qed.

(** The same division on arrays of more than one element stops earlier:
    [relative] takes the truth value of [self._nom != 0]. *)
Lemma u_truediv_array_raises :
  u_truediv (UA [1; 2] [f0_1; f0_1]) (OUnc (UA [1; 2] [f0_1; f0_1])) =
    Raise ValueError.
Proof. reflexivity. Qed.

(** C4 at [Uncertainty(2.0, 0.1) ** 3.0]: power is computed as modulo, on
    every numeric library; here the nominal returned is [2.0 % 3.0 = 2.0],
    while [2.0 ** 3.0] is [8.0]. *)
Theorem C4_pow_applies_modulo :
  (forall (L : NumLib) (X : Uncertainty) (y : operand), u_pow X y = u_mod X y) /\
  u_pow (U 2 f0_1) (OPlain (PyFloat 3)) = Ok (U 2 0) /\
  spec_power 2 3 = 8 /\ PrimFloat.eqb 2 8 = false.
Proof.
  split; [intros; apply u_pow_is_u_mod |].
  repeat split; reflexivity.
Qed.

(** Floor division and modulo construct their result with the scalar error
    [0.0], which the shape assertion rejects for an array nominal. *)
Lemma u_floordiv_array_raises :
  u_floordiv (UA [1; 2] [f0_1; f0_1]) (OPlain (PyFloat 2)) = Raise AssertionError /\
  u_mod (UA [1; 2] [f0_1; f0_1]) (OPlain (PyFloat 2)) = Raise AssertionError.
Proof. split; reflexivity. Qed.

(** Floor division and modulo of scalars: the nominal operation, error 0. *)
Lemma u_floordiv_mod_example :
  u_floordiv (U 7.5 f0_1) (OPlain (PyFloat 2)) = Ok (U 3 0) /\
  u_mod (U 7.5 f0_1) (OUnc (U 2 f0_2)) = Ok (U 1.5 0).
Proof. split; reflexivity. Qed.

(** C5 as stated fails for a negative scalar: the product of the error and
    [k] is negative and no instance is returned. *)
Lemma C5_counterexample :
  ~ exists u, u_mul (U 1 f0_1) (OPlain (PyFloat (-2))) = Ok u /\
              Ok (value u) = v_mul (PyFloat 1) (PyFloat (-2)) /\
              Ok (error u) = v_mul (PyFloat f0_1) (PyFloat (-2)).
Proof.
  intros (u & H & _).
  assert (u_mul (U 1 f0_1) (OPlain (PyFloat (-2))) = Raise NegativeStdDevError)
    as E by reflexivity.
  rewrite E in H. discriminate H.
Qed.

(** C5, amended: for every instance [X = (x, e)] and every plain scalar [k]
    such that no element of [e * k] is negative, [X * k] returns the
    instance whose nominal is [x * k] and whose error is [e * k], with no
    quadrature combination. *)
Theorem C5_scalar_product (x e k m e' : pyval) :
  shape x = shape e -> shape k = [] ->
  v_mul x k = Ok m -> v_mul e k = Ok e' ->
  any_negative e' = false ->
  u_mul {| _nom := x; _err := e |} (OPlain k) = Ok {| _nom := m; _err := e' |}.
Proof.
  intros Hxe Hk Hm He Hneg.
  rewrite (@u_mul_plain f64 (@mkU f64 x e) k m e' Hm He).
  apply Uncertainty_new_Ok. split; [| auto].
  destruct (v_mul_scalar x k Hk) as (m0 & Hm0 & Hsm).
  destruct (v_mul_scalar e k Hk) as (e0 & He0 & Hse).
  change (@np_shape f64) with shape.
  congruence.
Qed.

Lemma C5_witness :
  u_mul (UA [1; 2] [f0_1; 0]) (OPlain (PyFloat 3)) =
    Ok (UA [3; 6] [f0_1 * 3; 0]).
Proof.
  apply (C5_scalar_product (NdArray [1; 2]) (NdArray [f0_1; 0]) (PyFloat 3));
    reflexivity.
Defined.

(** C6: equality and the four orderings of two instances are those of their
    nominals, and equality with a plain number is that of the nominal with
    the number: the errors do not occur in the result.  In particular
    [Uncertainty(3, 0.1) == Uncertainty(3, 99.0)] and
    [Uncertainty(3, 0.1) == 3] hold. *)
Theorem C6_comparisons_nominal_only :
  (forall (L : NumLib) (x ex y ey : val),
     u_eq (mkU x ex) (OUnc (mkU y ey)) = v_eq x y /\
     u_lt (mkU x ex) (OUnc (mkU y ey)) = v_lt x y /\
     u_le (mkU x ex) (OUnc (mkU y ey)) = v_le x y /\
     u_gt (mkU x ex) (OUnc (mkU y ey)) = v_gt x y /\
     u_ge (mkU x ex) (OUnc (mkU y ey)) = v_ge x y /\
     u_eq (mkU x ex) (OPlain y) = v_eq x y) /\
  u_eq (U 3 f0_1) (OUnc (U 3 99)) = Ok (PyBool true) /\
  u_eq (U 3 f0_1) (OPlain (PyFloat 3)) = Ok (PyBool true).
Proof.
  split; [intros; repeat split |].
  split; reflexivity.
Qed.

Lemma C7_witness :
  np_shape (_nom (UA [2; 3] [f0_1; f0_2])) = np_shape (_err (UA [2; 3] [f0_1; f0_2])) /\
  Uncertainty_new (PyFloat 1) (NdArray [1; 2]) = Raise AssertionError.
Proof.
  split.
  - apply (proj1 (C7_shape_invariant (L := f64))).
    apply (R_binary u_add (UA [1; 2] [f0_1; f0_2]) (OPlain (PyFloat 1))).
    + constructor.
    + reflexivity.
  - apply (proj2 (C7_shape_invariant (L := f64))). discriminate.
Defined.

Lemma C8_witness :
  (exists h', u_iadd store0 1%positive (PVal (PyFloat 1)) = Ok (h', 1%positive) /\
     h' !! 1%positive = Some (UA [2; 3] [f0_1; f0_2]) /\
     (forall l, l <> 1%positive -> is_Some (store0 !! l) -> h' !! l = store0 !! l)) /\
  (exists h' l', u_iadd store0 2%positive (PVal (PyFloat 1)) = Ok (h', l') /\
     l' <> 2%positive /\ store0 !! l' = None /\ h' !! l' = Some (U 6 f0_1) /\
     h' !! 2%positive = Some (U 5 f0_1) /\
     (forall l, is_Some (store0 !! l) -> h' !! l = store0 !! l)).
Proof.
  split.
  - apply (C8_iadd_in_place (L := f64) store0 1%positive (PVal (PyFloat 1))
             (UA [1; 2] [f0_1; f0_2]) (OPlain (PyFloat 1)) (UA [2; 3] [f0_1; f0_2]));
      reflexivity.
  - apply (C8_iadd_in_place (L := f64) store0 2%positive (PVal (PyFloat 1))
             (U 5 f0_1) (OPlain (PyFloat 1)) (U 6 f0_1));
      reflexivity.
Defined.

(** On Python floats the reflected subtraction always reaches its end. *)
Lemma u_rsub_scalar (x e k : float) :
  (e <? 0) = false -> u_rsub (U x e) (OPlain (PyFloat k)) = Ok None.
Proof.
  intros He. unfold u_rsub, u_sub, u_neg, Uncertainty_new, any_negative.
  simpl. rewrite He. simpl. rewrite He. reflexivity.
Qed.

Lemma C9_witness :
  (forall u, u_rsub (U 1 f0_1) (OPlain (PyFloat 3)) <> Ok (Some u)) /\
  u_rsub (U 1 f0_1) (OPlain (PyFloat 3)) = Ok None.
Proof.
  split.
  - apply (proj1 (C9_rsub_returns_None (L := f64) (U 1 f0_1) (PyFloat 3))).
  - apply (proj2 (C9_rsub_returns_None (L := f64) (U 1 f0_1) (PyFloat 3))
             (U (-2) f0_1) (U 2 f0_1)); reflexivity.
Defined.

(** C10: the truth value of an instance is that of its nominal, whatever
    its error; [Uncertainty(0, 5.0)] is falsy. *)
Theorem C10_bool_is_nominal_truth :
  (forall (L : NumLib) (X : Uncertainty), u_bool X = v_bool (_nom X)) /\
  (forall (L : NumLib) (x e e' : val), u_bool (mkU x e) = u_bool (mkU x e')) /\
  u_bool (U 0 5) = Ok false /\ u_bool (U 2 0) = Ok true.
Proof.
  split; [reflexivity |]. split; [reflexivity |].
  split; reflexivity.
Qed.

(** * Further properties *)

(** ** Over every numeric library *)

Section MoreStatements.
Context `{L : NumLib}.

Implicit Types (u s new X Y : Uncertainty) (v e x y k : val)
  (h : gmap loc Uncertainty) (l self : loc).

Ltac is_built H :=
  simpl in H; bind_inv H; eexists _, _; eassumption.

Lemma binary_method_built op s (other : operand) u :
  binary_method op -> op s other = Ok u -> built u.
Proof.
  intros Hop H.
  destruct Hop; destruct other as [o | k];
    unfold u_add, u_sub, u_mul, u_truediv, u_rtruediv, u_floordiv,
      u_rfloordiv, u_truediv, u_mod, u_pow in H;
    first [discriminate H | is_built H].
Qed.

Lemma inplace_method_built op h self (other : pyobj) h' l u :
  inplace_method op -> op h self other = Ok (h', l) -> h' !! l = Some u ->
  built u.
Proof.
  intros Hop H Hl.
  destruct Hop; try rewrite u_iadd_inplace in H;
    destruct (inplace_returns _ _ _ _ _ _ _ H Hl) as (s & o & Hu);
    eapply binary_method_built; try exact Hu; constructor.
Qed.

(** Whatever a method returns was built by [__new__]. *)
Lemma returned_built u : returned u -> built u.
Proof.
  intros Hu. destruct Hu as
    [v e u H | op s o u Hop H | op s k u Hop H | op s u Hop H
    | s o q r H | s o q r H | s key u H | s items u H Hin | seq u H
    | op h self o h' l u Hop H Hl].
  - exists v, e. exact H.
  - eapply binary_method_built; eassumption.
  - destruct Hop; unfold u_rmod, u_rpow in H; is_built H.
  - destruct Hop; unfold u_neg, u_pos, u_abs, u_copy, u_real, u_imag in H;
      is_built H.
  - unfold u_divmod in H. bind_inv H. injection H as <- <-.
    eapply binary_method_built; [| eassumption]; constructor.
  - unfold u_divmod in H. bind_inv H. injection H as <- <-.
    eapply binary_method_built; [| eassumption]; constructor.
  - unfold u_getitem in H. is_built H.
  - unfold u_iter in H. bind_inv H. injection H as <-.
    apply in_map_iff in Hin as ([n e] & Hnew & _). exists n, e. exact Hnew.
  - unfold from_sequence in H. is_built H.
  - eapply inplace_method_built; eassumption.
Qed.

(** X1: the error of every instance that a construction or a method of the
    class returns has no negative element. *)
Theorem X1_returned_error_not_negative u :
  returned u -> Forall (fun a => num_lt0 a = false) (atleast_1d (error u)).
Proof.
  intros (v & e & H)%returned_built.
  apply Uncertainty_new_Ok in H as (_ & Hneg & ->).
  apply any_negative_false, Hneg.
Qed.

(** What an in-place operator does, given the plain operator [op] its first
    statement calls. *)
Lemma inplace_spec op h self (y : pyobj) X (o : operand) new :
  h !! self = Some X -> deref h y = Ok o -> op X o = Ok new ->
  (is_np_duck_array (_nom X) = true ->
     exists h', inplace op h self y = Ok (h', self) /\
       h' !! self = Some new /\
       (forall l, l <> self -> is_Some (h !! l) -> h' !! l = h !! l)) /\
  (is_np_duck_array (_nom X) = false ->
     exists h' l', inplace op h self y = Ok (h', l') /\
       l' <> self /\ h !! l' = None /\ h' !! l' = Some new /\
       h' !! self = Some X /\
       (forall l, is_Some (h !! l) -> h' !! l = h !! l)).
Proof.
  intros Hself Hy Hop.
  assert (inplace op h self y = Ok (rebind_or_new h self X new)) as Hrun.
  { unfold inplace, load. rewrite Hself. simpl. rewrite Hy. simpl.
    rewrite Hop. reflexivity. }
  split; intros Hduck.
  - destruct (rebind_or_new_array h self X new Hself Hduck) as (h' & E & Hn & Hfr).
    exists h'. rewrite Hrun, E. auto.
  - destruct (rebind_or_new_scalar h self X new Hduck)
      as (h' & l' & E & Hfresh & Hn & Hfr).
    exists h', l'. rewrite Hrun, E. repeat split; auto.
    + congruence.
    + rewrite Hfr by eauto. exact Hself.
Qed.

(** X2: each of the seven in-place operators, when the plain operator it
    calls returns [new]: on an array-backed nominal it returns [self]
    itself, which then holds the attributes of [new], and changes no other
    object; on a scalar-backed nominal it returns a new object holding
    [new] and changes nothing. *)
Theorem X2_inplace_operators iop op h self (y : pyobj) X (o : operand) new :
  inplace_of iop op ->
  h !! self = Some X -> deref h y = Ok o -> op X o = Ok new ->
  (is_np_duck_array (_nom X) = true ->
     exists h', iop h self y = Ok (h', self) /\
       h' !! self = Some new /\
       (forall l, l <> self -> is_Some (h !! l) -> h' !! l = h !! l)) /\
  (is_np_duck_array (_nom X) = false ->
     exists h' l', iop h self y = Ok (h', l') /\
       l' <> self /\ h !! l' = None /\ h' !! l' = Some new /\
       h' !! self = Some X /\
       (forall l, is_Some (h !! l) -> h' !! l = h !! l)).
Proof.
  intros Hpair. destruct Hpair; try rewrite u_iadd_inplace; apply inplace_spec.
Qed.

(** X3: a subtraction of two instances propagates exactly the error of
    their addition, and adding or subtracting a plain operand returns the
    error of [self] itself. *)
Theorem X3_sub_error_as_add X Y k :
  (forall a d, u_add X (OUnc Y) = Ok a -> u_sub X (OUnc Y) = Ok d ->
     error d = error a /\ quadrature (error X) (error Y) = Ok (error a)) /\
  (forall a, u_add X (OPlain k) = Ok a -> error a = error X) /\
  (forall d, u_sub X (OPlain k) = Ok d -> error d = error X).
Proof.
  split; [| split].
  - intros a d Ha Hd. unfold u_add in Ha. unfold u_sub in Hd.
    bind_inv Ha. bind_inv Hd.
    apply Uncertainty_new_Ok in Ha as (_ & _ & ->).
    apply Uncertainty_new_Ok in Hd as (_ & _ & ->).
    unfold error in *. simpl. split; congruence.
  - intros a Ha. unfold u_add in Ha. bind_inv Ha.
    apply Uncertainty_new_Ok in Ha as (_ & _ & ->). reflexivity.
  - intros d Hd. unfold u_sub in Hd. bind_inv Hd.
    apply Uncertainty_new_Ok in Hd as (_ & _ & ->). reflexivity.
Qed.

End MoreStatements.

(** ** On binary64 values *)

(** *** binary64 arithmetic *)

Lemma float_add_comm (x y : float) : x + y = y + x.
Proof.
  apply Prim2SF_inj. rewrite !add_spec.
  destruct (Prim2SF x) as [sx | sx | | sx mx ex],
           (Prim2SF y) as [sy | sy | | sy my ey];
    try destruct sx; try destruct sy; try reflexivity;
    unfold SF64add, SFadd; rewrite (Z.min_comm ey ex), Z.add_comm; reflexivity.
Qed.

Lemma float_opp_involutive (x : float) : - - x = x.
Proof.
  apply Prim2SF_inj. rewrite !opp_spec.
  destruct (Prim2SF x) as [s | s | | s m e]; simpl;
    rewrite ?negb_involutive; reflexivity.
Qed.

Lemma float_abs_idempotent (x : float) : abs (abs x) = abs x.
Proof.
  apply Prim2SF_inj. rewrite !abs_spec.
  destruct (Prim2SF x) as [s | s | | s m e]; reflexivity.
Qed.

Lemma float_abs_not_negative (x : float) : (abs x <? 0) = false.
Proof.
  rewrite ltb_spec, abs_spec.
  destruct (Prim2SF x) as [s | s | | s m e]; reflexivity.
Qed.

(** *** Lifting *)

Lemma combine_swap {A B C} (f : A -> B -> C) (xs : list A) (ys : list B) :
  map (fun p => f (fst p) (snd p)) (combine xs ys) =
  map (fun p => f (snd p) (fst p)) (combine ys xs).
Proof.
  revert ys. induction xs as [| x xs IH]; intros [| y ys]; simpl;
    try reflexivity.
  f_equal. apply IH.
Qed.

(** Broadcasting does not depend on the side an operand is on. *)
Lemma broadcast_swap {A} (f : float -> float -> A) (xs ys : list float) :
  broadcast f xs ys = broadcast (fun a b => f b a) ys xs.
Proof.
  unfold broadcast. rewrite (Nat.eqb_sym (length ys) (length xs)).
  destruct (length xs =? length ys)%nat eqn:Hlen.
  - f_equal. apply combine_swap.
  - destruct xs as [| x [| x' xs]], ys as [| y [| y' ys]];
      try reflexivity; discriminate Hlen.
Qed.

Lemma broadcast_ext {A} (f g : float -> float -> A) (xs ys : list float) :
  (forall a b, f a b = g a b) -> broadcast f xs ys = broadcast g xs ys.
Proof.
  intros Hfg. unfold broadcast.
  destruct (length xs =? length ys)%nat.
  - f_equal. apply map_ext. intros p. apply Hfg.
  - destruct xs as [| x [| x' xs]], ys as [| y [| y' ys]];
      try reflexivity; f_equal; apply map_ext; intros; apply Hfg.
Qed.

Lemma binop_comm (py : float -> float -> res float) (np : float -> float -> float)
    (a b : pyval) :
  (forall x y, py x y = py y x) -> (forall x y, np x y = np y x) ->
  binop py np a b = binop py np b a.
Proof.
  intros Hpy Hnp.
  destruct a as [x | x | xs], b as [y | y | ys]; simpl;
    first [ rewrite (Hpy x y); reflexivity
          | rewrite (Hnp x y); reflexivity
          | do 2 f_equal; apply map_ext; intros ?; apply Hnp
          | idtac ].
  rewrite (broadcast_swap np xs ys).
  rewrite (broadcast_ext (fun a b => np b a) np ys xs); [reflexivity |].
  intros; apply Hnp.
Qed.

Lemma cmpop_swap (op : float -> float -> bool) (a b : pyval) :
  cmpop op a b = cmpop (fun x y => op y x) b a.
Proof.
  destruct a as [x | x | xs], b as [y | y | ys]; simpl; try reflexivity.
  rewrite (broadcast_swap op xs ys). reflexivity.
Qed.

Lemma shape_unop (f : float -> float) (a : pyval) : shape (unop f a) = shape a.
Proof. destruct a; simpl; rewrite ?length_map; reflexivity. Qed.

Lemma unop_unop (f g : float -> float) (a : pyval) :
  unop f (unop g a) = unop (fun x => f (g x)) a.
Proof. destruct a; simpl; rewrite ?map_map; reflexivity. Qed.

Lemma unop_ext (f g : float -> float) (a : pyval) :
  (forall x, f x = g x) -> unop f a = unop g a.
Proof.
  intros Hfg. destruct a as [x | x | xs]; simpl; rewrite ?Hfg; try reflexivity.
  f_equal. apply map_ext, Hfg.
Qed.

Lemma unop_id (f : float -> float) (a : pyval) :
  (forall x, f x = x) -> unop f a = a.
Proof.
  intros Hf. destruct a as [x | x | xs]; simpl; rewrite ?Hf; try reflexivity.
  f_equal. rewrite <- (map_id xs) at 2. apply map_ext, Hf.
Qed.

(** The only exception squaring raises is [OverflowError]. *)
Lemma square_Raise (a : pyval) (ex : exn) :
  square a = Raise ex -> ex = OverflowError.
Proof.
  destruct a as [x | x | xs]; simpl; try discriminate.
  unfold py_square. destruct (_ && _); simpl; congruence.
Qed.

Lemma quadrature_comm (a b : pyval) : quadrature a b = quadrature b a.
Proof.
  unfold quadrature. simpl.
  destruct (square a) as [a2 | ea] eqn:Ha, (square b) as [b2 | eb] eqn:Hb;
    simpl; try reflexivity.
  - rewrite (binop_comm _ _ a2 b2); [reflexivity | |];
      intros; rewrite float_add_comm; reflexivity.
  - apply square_Raise in Ha, Hb. congruence.
Qed.

(** X4: the sum of two instances does not depend on their order: the same
    instance is returned, or the same exception raised, whichever of the
    two is [self]. *)
Theorem X4_add_commutative (X Y : Uncertainty) :
  u_add X (OUnc Y) = u_add Y (OUnc X).
Proof.
  unfold u_add. simpl.
  rewrite (binop_comm _ _ (_nom X) (_nom Y));
    [| intros; rewrite float_add_comm; reflexivity
     | intros; apply float_add_comm].
  rewrite (quadrature_comm (_err X) (_err Y)). reflexivity.
Qed.

(** X5: negation keeps the error and undoes itself: if [-X] is [Y] then
    [-Y] is [X]. *)
Theorem X5_neg_involutive (X Y : Uncertainty) :
  u_neg X = Ok Y -> error Y = error X /\ u_neg Y = Ok X.
Proof.
  intros H. unfold u_neg in H. simpl in H.
  apply Uncertainty_new_Ok in H as (Hs & Hneg & ->).
  split; [reflexivity |]. unfold u_neg. simpl.
  rewrite unop_unop, (unop_id _ _ float_opp_involutive).
  apply Uncertainty_new_Ok. rewrite <- Hs. simpl.
  rewrite shape_unop. destruct X; auto.
Qed.

Lemma X5_witness :
  error (U (-3) f0_1) = error (U 3 f0_1) /\ u_neg (U (-3) f0_1) = Ok (U 3 f0_1).
Proof. apply (X5_neg_involutive (U 3 f0_1) (U (-3) f0_1)). reflexivity. Defined.

Lemma any_negative_abs (a : pyval) : any_negative (unop abs a) = false.
Proof.
  apply any_negative_false. destruct a as [x | x | xs]; simpl.
  - repeat constructor. apply float_abs_not_negative.
  - repeat constructor. apply float_abs_not_negative.
  - induction xs as [| x xs IH]; simpl; constructor;
      [apply float_abs_not_negative | exact IH].
Qed.

(** X6: the absolute value keeps the error, has no negative nominal
    element, and taking it again changes nothing. *)
Theorem X6_abs (X Y : Uncertainty) :
  u_abs X = Ok Y ->
  error Y = error X /\ any_negative (value Y) = false /\ u_abs Y = Ok Y.
Proof.
  intros H. unfold u_abs in H. simpl in H.
  apply Uncertainty_new_Ok in H as (Hs & Hneg & ->).
  split; [reflexivity |]. split.
  - apply any_negative_abs.
  - unfold u_abs. simpl.
    rewrite unop_unop, (unop_ext _ abs (_nom X) float_abs_idempotent).
    apply Uncertainty_new_Ok. auto.
Qed.

Lemma X6_witness :
  error (U 3 f0_1) = error (U (-3) f0_1) /\
  any_negative (value (U 3 f0_1)) = false /\ u_abs (U 3 f0_1) = Ok (U 3 f0_1).
Proof. apply (X6_abs (U (-3) f0_1) (U 3 f0_1)). reflexivity. Defined.

(** *** Arrays of two or more elements *)

(** With an array on the left, the only exception an arithmetic operator
    raises is the broadcasting [ValueError]. *)
Lemma binop_array_l_Raise py np (xs : list float) (b : pyval) (ex : exn) :
  binop py np (NdArray xs) b = Raise ex -> ex = ValueError.
Proof.
  destruct b as [y | y | ys]; simpl; try discriminate.
  unfold broadcast. destruct (_ =? _)%nat; simpl; [discriminate |].
  destruct xs as [| x [| x' xs]], ys as [| y [| y' ys]]; simpl; congruence.
Qed.

Lemma binop_array_r_Raise py np (a : pyval) (ys : list float) (ex : exn) :
  binop py np a (NdArray ys) = Raise ex -> ex = ValueError.
Proof.
  destruct a as [x | x | xs]; simpl; try discriminate.
  unfold broadcast. destruct (_ =? _)%nat; simpl; [discriminate |].
  destruct xs as [| x [| x' xs]], ys as [| y [| y' ys]]; simpl; congruence.
Qed.

Lemma binop_array_l_Ok py np (xs : list float) (b m : pyval) :
  binop py np (NdArray xs) b = Ok m -> exists zs, m = NdArray zs.
Proof.
  destruct b as [y | y | ys]; simpl.
  - intros [= <-]. eauto.
  - intros [= <-]. eauto.
  - destruct (broadcast np xs ys); simpl; [intros [= <-]; eauto | discriminate].
Qed.

(** The relative error of an array of two or more elements cannot be
    taken: the truth value of [self._nom != 0] is ambiguous. *)
Lemma relative_array_raises (xs : list float) (e : pyval) :
  2 <= length xs ->
  relative {| _nom := NdArray xs; _err := e |} = Raise ValueError.
Proof.
  intros Hlen. unfold relative. simpl.
  destruct xs as [| x [| x' xs]]; simpl in *; try lia. reflexivity.
Qed.

(** X7: when the nominal of [self] is an array of two or more elements,
    multiplying or dividing by an instance, and dividing a plain operand by
    [self], always raise [ValueError]. *)
Theorem X7_array_mul_div_raise (xs : list float) (e k : pyval) (Y : Uncertainty) :
  2 <= length xs ->
  let X := {| _nom := NdArray xs; _err := e |} in
  u_mul X (OUnc Y) = Raise ValueError /\
  u_truediv X (OUnc Y) = Raise ValueError /\
  u_rtruediv X (OPlain k) = Raise ValueError.
Proof.
  intros Hlen X.
  pose proof (relative_array_raises xs e Hlen) as Hrel. fold X in Hrel.
  repeat split.
  - unfold u_mul, rel_quadrature, rel. rewrite Hrel.
    change (v_mul (_nom X) (_nom Y))
      with (binop (fun x y => Ok (x * y)) PrimFloat.mul (NdArray xs) (_nom Y)).
    destruct (binop _ _ (NdArray xs) (_nom Y)) as [m | ex] eqn:Hm;
      [reflexivity |].
    apply binop_array_l_Raise in Hm as ->. reflexivity.
  - unfold u_truediv, rel_quadrature, rel. rewrite Hrel.
    change (v_truediv (_nom X) (_nom Y))
      with (binop py_truediv PrimFloat.div (NdArray xs) (_nom Y)).
    destruct (binop _ _ (NdArray xs) (_nom Y)) as [m | ex] eqn:Hm;
      [reflexivity |].
    apply binop_array_l_Raise in Hm as ->. reflexivity.
  - unfold u_rtruediv, rel. rewrite Hrel.
    change (v_truediv k (_nom X))
      with (binop py_truediv PrimFloat.div k (NdArray xs)).
    destruct (binop _ _ k (NdArray xs)) as [m | ex] eqn:Hm; [reflexivity |].
    apply binop_array_r_Raise in Hm as ->. reflexivity.
Qed.

Lemma X7_witness :
  u_mul (UA [1; 2] [f0_1; f0_2]) (OUnc (U 3 f0_1)) = Raise ValueError /\
  u_truediv (UA [1; 2] [f0_1; f0_2]) (OUnc (U 3 f0_1)) = Raise ValueError /\
  u_rtruediv (UA [1; 2] [f0_1; f0_2]) (OPlain (PyFloat 3)) = Raise ValueError.
Proof.
  apply (X7_array_mul_div_raise [1; 2] (NdArray [f0_1; f0_2]) (PyFloat 3) (U 3 f0_1)).
  simpl. lia.
Defined.

(** The scalar error [0.0] never has the shape of an array nominal. *)
Lemma zero_error_array_raises py np (xs : list float) (b : pyval) :
  (new_mag <- binop py np (NdArray xs) b ;; Uncertainty_new new_mag (PyFloat 0))
    = Raise AssertionError \/
  (new_mag <- binop py np (NdArray xs) b ;; Uncertainty_new new_mag (PyFloat 0))
    = Raise ValueError.
Proof.
  destruct (binop py np (NdArray xs) b) as [m | ex] eqn:Hm; simpl.
  - left. apply binop_array_l_Ok in Hm as (zs & ->). reflexivity.
  - right. apply binop_array_l_Raise in Hm as ->. reflexivity.
Qed.

(** X8: floor division, modulo and power of an instance whose nominal is an
    array never return an instance: the result is constructed with the
    scalar error [0.0], so the call raises [AssertionError] (or the
    [ValueError] of a failed broadcast); [divmod] fails with them. *)
Theorem X8_array_floordiv_mod_pow_raise (xs : list float) (e : pyval)
    (other : operand) :
  let X := {| _nom := NdArray xs; _err := e |} in
  (u_floordiv X other = Raise AssertionError \/ u_floordiv X other = Raise ValueError) /\
  (u_mod X other = Raise AssertionError \/ u_mod X other = Raise ValueError) /\
  (u_pow X other = Raise AssertionError \/ u_pow X other = Raise ValueError) /\
  (u_divmod X other = Raise AssertionError \/ u_divmod X other = Raise ValueError).
Proof.
  intros X.
  assert (u_floordiv X other = Raise AssertionError \/
          u_floordiv X other = Raise ValueError) as Hfd.
  { destruct other as [o | k]; apply zero_error_array_raises. }
  split; [exact Hfd |].
  split; [destruct other as [o | k]; apply zero_error_array_raises |].
  split; [destruct other as [o | k]; apply zero_error_array_raises |].
  unfold u_divmod. destruct Hfd as [-> | ->]; [left | right]; reflexivity.
Qed.

(** *** Sequences, iteration and indexing *)

Import F64Methods.

Lemma setitem_at_end (pre : list float) (k : nat) (x : pyval) :
  shape x = [] ->
  exists y, elements x = [y] /\
    setitem (NdArray (pre ++ repeat 0 (S k))) (length pre) x =
      Ok (NdArray ((pre ++ [y]) ++ repeat 0 k)).
Proof.
  intros Hx.
  assert (forall y : float,
    (if (length pre <? length (pre ++ repeat 0%float (S k)))%nat
     then Ok (NdArray (<[length pre := y]> (pre ++ repeat 0%float (S k))))
     else Raise IndexError) = Ok (NdArray ((pre ++ [y]) ++ repeat 0 k))) as Hset.
  { intros y.
    assert ((length pre <? length (pre ++ repeat 0%float (S k)))%nat = true) as ->.
    { apply Nat.ltb_lt. rewrite length_app. simpl. lia. }
    rewrite insert_app_r_alt by lia. rewrite Nat.sub_diag. simpl.
    rewrite <- app_assoc. reflexivity. }
  destruct x as [y | y | ys]; try discriminate Hx;
    exists y; (split; [reflexivity | apply Hset]).
Qed.

Lemma fill_from_scalars (seq : list Uncertainty) :
  Forall scalar_instance seq ->
  forall (pn pe : list float) (k : nat), length pn = length pe ->
  fill_from seq (length pn)
      (NdArray (pn ++ repeat 0 (length seq + k)))
      (NdArray (pe ++ repeat 0 (length seq + k))) =
    Ok (NdArray (pn ++ noms seq ++ repeat 0 k),
        NdArray (pe ++ errs seq ++ repeat 0 k)).
Proof.
  induction 1 as [| u rest (Hn & He & _) _ IH]; intros pn pe k Hlen.
  - reflexivity.
  - unfold noms, errs. cbn [fill_from length Nat.add flat_map].
    fold (noms rest) (errs rest).
    destruct (setitem_at_end pn (length rest + k) (_nom u) Hn) as (y & Hy & Hsn).
    destruct (setitem_at_end pe (length rest + k) (_err u) He) as (z & Hz & Hse).
    change (@v_setitem f64) with setitem.
    rewrite Hsn. cbn [bind]. rewrite Hlen, Hse. cbn [bind].
    replace (S (length pe)) with (length (pn ++ [y]))
      by (rewrite length_app; simpl; lia).
    rewrite (IH (pn ++ [y]) (pe ++ [z]) k)
      by (rewrite !length_app; simpl; lia).
    rewrite Hy, Hz, <- !app_assoc. reflexivity.
Qed.

Lemma errs_not_negative (seq : list Uncertainty) :
  Forall scalar_instance seq -> any_negative (NdArray (errs seq)) = false.
Proof.
  intros Hseq. apply any_negative_false. simpl. unfold errs.
  induction Hseq as [| u rest (_ & He & Hneg) _ IH]; simpl; [constructor |].
  apply Forall_app. split; [| exact IH].
  apply any_negative_false in Hneg. exact Hneg.
Qed.

Lemma length_noms_errs (seq : list Uncertainty) :
  Forall scalar_instance seq ->
  length (noms seq) = length seq /\ length (errs seq) = length seq.
Proof.
  unfold noms, errs.
  induction 1 as [| u rest (Hn & He & _) _ [IHn IHe]]; [split; reflexivity |].
  simpl. rewrite !length_app, IHn, IHe.
  destruct (_nom u); try discriminate Hn;
    destruct (_err u); try discriminate He; split; reflexivity.
Qed.

Lemma from_sequence_scalars (seq : list Uncertainty) :
  Forall scalar_instance seq ->
  from_sequence seq = Ok (UA (noms seq) (errs seq)).
Proof.
  intros Hseq. destruct (length_noms_errs seq Hseq) as [Hln Hle].
  unfold from_sequence. change (@np_empty f64) with empty. unfold empty.
  pose proof (fill_from_scalars seq Hseq [] [] 0 eq_refl) as Hfill.
  simpl in Hfill. rewrite Nat.add_0_r, !app_nil_r in Hfill.
  rewrite Hfill. cbn [bind fst snd].
  apply Uncertainty_new_Ok. split; [| split; [| reflexivity]].
  - simpl. congruence.
  - apply errs_not_negative, Hseq.
Qed.

(** X9: [from_sequence] of scalar instances returns the instance whose
    nominal is the array of their nominals and whose error is the array of
    their errors, in the order of the sequence; its length is that of the
    sequence (an empty sequence gives two empty arrays). *)
Theorem X9_from_sequence (seq : list Uncertainty) :
  Forall scalar_instance seq ->
  from_sequence seq = Ok (UA (noms seq) (errs seq)) /\
  u_len (UA (noms seq) (errs seq)) = Ok (length seq).
Proof.
  intros Hseq. destruct (length_noms_errs seq Hseq) as [Hln Hle]. split.
  - apply from_sequence_scalars, Hseq.
  - unfold u_len. simpl. congruence.
Qed.

Lemma X9_witness :
  from_sequence [U 1 f0_1; U 2 f0_2] = Ok (UA [1; 2] [f0_1; f0_2]) /\
  u_len (UA [1; 2] [f0_1; f0_2]) = Ok 2%nat.
Proof.
  apply (X9_from_sequence [U 1 f0_1; U 2 f0_2]).
  repeat constructor.
Defined.

Lemma iter_items (ns es : list float) :
  Forall (fun e => (e <? 0) = false) es ->
  map (fun ve : pyval * pyval => Uncertainty_new (fst ve) (snd ve))
      (combine (map NpFloat ns) (map NpFloat es)) =
  map (fun p : float * float =>
         Ok {| _nom := NpFloat (fst p); _err := NpFloat (snd p) |})
      (combine ns es).
Proof.
  intros Hes. revert ns. induction Hes as [| e es He _ IH]; intros [| n ns];
    try reflexivity.
  simpl. rewrite IH. f_equal.
  apply Uncertainty_new_Ok. split; [reflexivity |]. split; [| reflexivity].
  unfold any_negative. simpl. rewrite He. reflexivity.
Qed.

Lemma u_iter_arrays (ns es : list float) :
  any_negative (NdArray es) = false ->
  u_iter (UA ns es) =
    Ok (map (fun p : float * float =>
               Ok {| _nom := NpFloat (fst p); _err := NpFloat (snd p) |})
            (combine ns es)).
Proof.
  intros Hneg. unfold u_iter. simpl.
  rewrite iter_items; [reflexivity |].
  apply any_negative_false in Hneg. exact Hneg.
Qed.

(** X10: iterating an instance made of two arrays with no negative error
    yields, in order, one instance per element, pairing the i-th nominal
    with the i-th error as NumPy scalars; iterating an instance whose
    nominal is a scalar raises [TypeError]. *)
Theorem X10_iter (X : Uncertainty) :
  (forall ns es, X = UA ns es -> any_negative (_err X) = false ->
     u_iter X = Ok (map (fun p : float * float =>
                           Ok {| _nom := NpFloat (fst p); _err := NpFloat (snd p) |})
                        (combine ns es))) /\
  (shape (_nom X) = [] -> u_iter X = Raise TypeError).
Proof.
  split.
  - intros ns es -> Hneg. apply u_iter_arrays, Hneg.
  - intros Hs. unfold u_iter. simpl.
    destruct (_nom X); try discriminate Hs; reflexivity.
Qed.

Lemma X10_witness :
  u_iter (UA [1; 2] [f0_1; f0_2]) =
    Ok [Ok {| _nom := NpFloat 1; _err := NpFloat f0_1 |};
        Ok {| _nom := NpFloat 2; _err := NpFloat f0_2 |}] /\
  u_iter (U 1 f0_1) = Raise TypeError.
Proof.
  split.
  - apply (proj1 (X10_iter (UA [1; 2] [f0_1; f0_2])) [1; 2] [f0_1; f0_2]);
      reflexivity.
  - apply (proj2 (X10_iter (U 1 f0_1))). reflexivity.
Defined.

(** X11: building an instance from a sequence of scalar instances and
    iterating it gives the nominals and the errors of the sequence back, in
    order, one item per instance of the sequence. *)
Theorem X11_from_sequence_iter (seq : list Uncertainty) (X : Uncertainty) :
  Forall scalar_instance seq -> from_sequence seq = Ok X ->
  exists items, u_iter X = Ok items /\ length items = length seq /\
    items = map (fun p : float * float =>
                   Ok {| _nom := NpFloat (fst p); _err := NpFloat (snd p) |})
                (combine (noms seq) (errs seq)).
Proof.
  intros Hseq HX.
  rewrite (from_sequence_scalars seq Hseq) in HX. injection HX as <-.
  destruct (length_noms_errs seq Hseq) as [Hln Hle].
  eexists. split; [| split; [| reflexivity]].
  - apply u_iter_arrays, errs_not_negative, Hseq.
  - rewrite length_map, length_combine. lia.
Qed.

Lemma X11_witness :
  exists items, u_iter (UA [1; 2] [f0_1; f0_2]) = Ok items /\
    length items = 2%nat /\
    items = [Ok {| _nom := NpFloat 1; _err := NpFloat f0_1 |};
             Ok {| _nom := NpFloat 2; _err := NpFloat f0_2 |}].
Proof.
  apply (X11_from_sequence_iter [U 1 f0_1; U 2 f0_2] (UA [1; 2] [f0_1; f0_2])).
  - repeat constructor.
  - reflexivity.
Defined.

Lemma nth_error_is_lookup {A} (xs : list A) (i : nat) : nth_error xs i = xs !! i.
Proof.
  revert i. induction xs as [| x xs IH]; intros [| i]; simpl; auto.
Qed.

Lemma getitem_index_of (xs : list float) (key : Z) :
  getitem (NdArray xs) key =
    (i <- index_of (length xs) key ;;
     match xs !! i with
     | Some x => Ok (NpFloat x)
     | None => Raise IndexError
     end).
Proof.
  unfold getitem, index_of.
  destruct ((_ <? 0)%Z || (_ <=? _)%Z); [reflexivity |].
  simpl. rewrite nth_error_is_lookup. reflexivity.
Qed.

Lemma index_of_nat (n i : nat) :
  (i < n)%nat ->
  index_of n (Z.of_nat i) = Ok i /\
  index_of n (Z.of_nat i - Z.of_nat n) = Ok i.
Proof.
  intros Hi. unfold index_of. split.
  - destruct (Z.ltb_spec (Z.of_nat i) 0); [lia |].
    destruct (Z.ltb_spec (Z.of_nat i) 0); [lia |].
    destruct (Z.leb_spec (Z.of_nat n) (Z.of_nat i)); [lia |].
    simpl. rewrite Nat2Z.id. reflexivity.
  - destruct (Z.ltb_spec (Z.of_nat i - Z.of_nat n) 0); [| lia].
    replace (Z.of_nat i - Z.of_nat n + Z.of_nat n)%Z with (Z.of_nat i) by lia.
    destruct (Z.ltb_spec (Z.of_nat i) 0); [lia |].
    destruct (Z.leb_spec (Z.of_nat n) (Z.of_nat i)); [lia |].
    simpl. rewrite Nat2Z.id. reflexivity.
Qed.

Lemma index_of_out (n : nat) (key : Z) :
  (key < - Z.of_nat n \/ Z.of_nat n <= key)%Z ->
  index_of n key = Raise IndexError.
Proof.
  intros Hk. unfold index_of.
  destruct (Z.ltb_spec key 0).
  - destruct (Z.ltb_spec (key + Z.of_nat n) 0); [reflexivity | lia].
  - destruct (Z.ltb_spec key 0); [lia |].
    destruct (Z.leb_spec (Z.of_nat n) key); [reflexivity | lia].
Qed.

(** X12: indexing an instance made of two arrays of the same length with an
    integer key.  A key below [-len] or from [len] on raises [IndexError];
    the keys [i] and [i - len], for a position [i] of the arrays, both
    return the instance of the [i]-th nominal and the [i]-th error (as
    NumPy scalars) when that error is not negative.  A Python float nominal
    cannot be indexed: [TypeError]. *)
Theorem X12_getitem (ns es : list float) :
  length ns = length es ->
  (forall key, (key < - Z.of_nat (length ns) \/ Z.of_nat (length ns) <= key)%Z ->
     u_getitem (UA ns es) key = Raise IndexError) /\
  (forall i n e, ns !! i = Some n -> es !! i = Some e -> (e <? 0) = false ->
     let item := {| _nom := NpFloat n; _err := NpFloat e |} in
     u_getitem (UA ns es) (Z.of_nat i) = Ok item /\
     u_getitem (UA ns es) (Z.of_nat i - Z.of_nat (length ns)) = Ok item) /\
  (forall x e key, u_getitem {| _nom := PyFloat x; _err := e |} key = Raise TypeError).
Proof.
  intros Hlen. split; [| split].
  - intros key Hkey. unfold u_getitem, UA. cbn [_nom _err].
    change (@v_getitem f64) with getitem.
    rewrite getitem_index_of, (index_of_out _ _ Hkey). reflexivity.
  - intros i n e Hn He Hneg item.
    assert (i < length ns)%nat as Hi by (eapply lookup_lt_Some; eassumption).
    destruct (index_of_nat (length ns) i Hi) as [Hpos Hwrap].
    assert (Uncertainty_new (NpFloat n) (NpFloat e) = Ok item) as Hnew.
    { apply Uncertainty_new_Ok. split; [reflexivity |]. split; [| reflexivity].
      unfold any_negative. simpl. rewrite Hneg. reflexivity. }
    unfold u_getitem, UA. cbn [_nom _err].
    change (@v_getitem f64) with getitem.
    rewrite !getitem_index_of, <- Hlen, Hpos, Hwrap.
    cbn [bind]. rewrite Hn, He. cbn [bind]. auto.
  - reflexivity.
Qed.

Lemma X12_witness :
  u_getitem (UA [1; 2] [f0_1; f0_2]) 1 =
    Ok {| _nom := NpFloat 2; _err := NpFloat f0_2 |} /\
  u_getitem (UA [1; 2] [f0_1; f0_2]) (-1) =
    Ok {| _nom := NpFloat 2; _err := NpFloat f0_2 |}.
Proof.
  apply (proj1 (proj2 (X12_getitem [1; 2] [f0_1; f0_2] eq_refl)) 1%nat 2 f0_2);
    reflexivity.
Defined.

(** *** [tolist] and [flat] *)

Lemma Uncertainty_new_PyFloat (n e : float) :
  Uncertainty_new (PyFloat n) (PyFloat e) =
    if e <? 0 then Raise NegativeStdDevError else Ok (U n e).
Proof.
  unfold Uncertainty_new, any_negative. cbn. destruct (e <? 0); reflexivity.
Qed.

Lemma Uncertainty_new_NpFloat (n e : float) :
  Uncertainty_new (NpFloat n) (NpFloat e) =
    if e <? 0 then Raise NegativeStdDevError
    else Ok {| _nom := NpFloat n; _err := NpFloat e |}.
Proof.
  unfold Uncertainty_new, any_negative. cbn. destruct (e <? 0); reflexivity.
Qed.

(** X13: [tolist] on an instance made of two arrays unpacks the nominal
    list and the error list themselves into two names each.  Unless the
    arrays have exactly two elements it raises [ValueError]; with two
    elements it returns the instance of the two nominal numbers and the
    instance of the two error numbers (the first number as nominal, the
    second as error), or raises [NegativeStdDevError] when the second
    nominal number is negative.  On a Python float nominal it raises
    [AttributeError]. *)
Theorem X13_tolist :
  (forall ns es, length ns <> 2%nat ->
     u_tolist (UA ns es) = Raise ValueError) /\
  (forall n0 n1 e0 e1, (n1 <? 0) = false -> (e1 <? 0) = false ->
     u_tolist (UA [n0; n1] [e0; e1]) = Ok (TMany [U n0 n1; U e0 e1])) /\
  (forall n0 n1 e0 e1, (n1 <? 0) = true ->
     u_tolist (UA [n0; n1] [e0; e1]) = Raise NegativeStdDevError) /\
  (forall x e, u_tolist {| _nom := PyFloat x; _err := e |} = Raise AttributeError).
Proof.
  split; [| split; [| split]].
  - intros ns es Hne. unfold u_tolist. simpl.
    destruct ns as [| n0 [| n1 [| n2 ns]]]; simpl in *;
      try reflexivity; try contradiction.
  - intros n0 n1 e0 e1 Hn He. unfold u_tolist. cbn -[Uncertainty_new].
    rewrite !Uncertainty_new_PyFloat, Hn, He. reflexivity.
  - intros n0 n1 e0 e1 Hn. unfold u_tolist. cbn -[Uncertainty_new].
    rewrite !Uncertainty_new_PyFloat, Hn. reflexivity.
  - reflexivity.
Qed.

Lemma X13_witness :
  u_tolist (UA [1; 2; 3] [f0_1; f0_1; f0_1]) = Raise ValueError /\
  u_tolist (UA [1; 2] [f0_1; f0_2]) = Ok (TMany [U 1 2; U f0_1 f0_2]) /\
  u_tolist (UA [1; -2] [f0_1; f0_2]) = Raise NegativeStdDevError.
Proof.
  split; [| split].
  - apply (proj1 X13_tolist [1; 2; 3] [f0_1; f0_1; f0_1]). simpl. lia.
  - apply (proj1 (proj2 X13_tolist) 1 2 f0_1 f0_2); reflexivity.
  - apply (proj1 (proj2 (proj2 X13_tolist)) 1 (-2) f0_1 f0_2); reflexivity.
Defined.

(** X14: the generator of [flat] on an instance made of two arrays unpacks
    the two flat iterators themselves.  Unless the arrays have exactly two
    elements its first [next] raises [ValueError]; with two elements it
    yields the instance of the two nominal numbers, then the instance of the
    two error numbers.  On a Python float nominal the first [next] raises
    [AttributeError]. *)
Theorem X14_flat :
  (forall ns es, length ns <> 2%nat ->
     u_flat (UA ns es) = [Raise ValueError]) /\
  (forall n0 n1 e0 e1, (n1 <? 0) = false -> (e1 <? 0) = false ->
     u_flat (UA [n0; n1] [e0; e1]) =
       [Ok {| _nom := NpFloat n0; _err := NpFloat n1 |};
        Ok {| _nom := NpFloat e0; _err := NpFloat e1 |}]) /\
  (forall x e, u_flat {| _nom := PyFloat x; _err := e |} = [Raise AttributeError]).
Proof.
  split; [| split].
  - intros ns es Hne. unfold u_flat. simpl.
    destruct ns as [| n0 [| n1 [| n2 ns]]]; simpl in *;
      try reflexivity; contradiction.
  - intros n0 n1 e0 e1 Hn He. unfold u_flat. cbn -[Uncertainty_new].
    rewrite !Uncertainty_new_NpFloat, Hn, He. reflexivity.
  - reflexivity.
Qed.

Lemma X14_witness :
  u_flat (UA [1; 2; 3] [f0_1; f0_1; f0_1]) = [Raise ValueError] /\
  u_flat (UA [1; 2] [f0_1; f0_2]) =
    [Ok {| _nom := NpFloat 1; _err := NpFloat 2 |};
     Ok {| _nom := NpFloat f0_1; _err := NpFloat f0_2 |}].
Proof.
  split.
  - apply (proj1 X14_flat [1; 2; 3] [f0_1; f0_1; f0_1]). simpl. lia.
  - apply (proj1 (proj2 X14_flat) 1 2 f0_1 f0_2); reflexivity.
Defined.

(** *** Comparisons *)

(** X15: [!=] succeeds exactly when [==] does and is its negation: a Python
    [bool] for two scalars, the element-wise negation for arrays; an
    exception of [==] is raised unchanged. *)
Theorem X15_ne_negates_eq (X : Uncertainty) (other : operand) :
  match u_eq X other with
  | Ok (PyBool b) | Ok (NpBool b) => u_ne X other = Ok (PyBool (negb b))
  | Ok (NdBool bs) => u_ne X other = Ok (NdBool (map negb bs))
  | Raise ex => u_ne X other = Raise ex
  end.
Proof.
  unfold u_ne. destruct (u_eq X other) as [[b | b | bs] | ex]; reflexivity.
Qed.

(** X16: the orderings of two instances agree when the operands are
    swapped: [X < Y] is [Y > X] and [X <= Y] is [Y >= X], result for result
    and exception for exception. *)
Theorem X16_orderings_swap (X Y : Uncertainty) :
  u_lt X (OUnc Y) = u_gt Y (OUnc X) /\ u_le X (OUnc Y) = u_ge Y (OUnc X).
Proof.
  unfold u_lt, u_gt, u_le, u_ge, compare. simpl.
  split; apply cmpop_swap.
Qed.

(** *** Writing into the arrays *)

Lemma setitem_key_scalar (xs : list float) (i : nat) (x : pyval) :
  (i < length xs)%nat -> shape x = [] ->
  exists y, elements x = [y] /\
    setitem_key (NdArray xs) (Z.of_nat i) x = Ok (NdArray (<[i := y]> xs)).
Proof.
  intros Hi Hx. unfold setitem_key.
  rewrite (proj1 (index_of_nat (length xs) i Hi)). cbn [bind].
  destruct x as [y | y | ys]; try discriminate Hx; exists y; split; reflexivity.
Qed.

Lemma getitem_in_range (xs : list float) (i : nat) :
  (i < length xs)%nat -> exists x, xs !! i = Some x /\
    getitem (NdArray xs) (Z.of_nat i) = Ok (NpFloat x).
Proof.
  intros Hi. destruct (lookup_lt_is_Some_2 xs i Hi) as [x Hx].
  exists x. split; [exact Hx |].
  rewrite getitem_index_of, (proj1 (index_of_nat (length xs) i Hi)).
  cbn [bind]. rewrite Hx. reflexivity.
Qed.

(** X17: [X[i] = V] followed by [X[i]].  Let the nominal and the error of
    [X] be two distinct arrays of the same length, [i] one of their
    positions, and [V] an instance of two scalars with a non-negative
    error.  The assignment succeeds, writes the nominal of [V] at position
    [i] of the nominal array and its error at position [i] of the error
    array, changes no other object, and [X[i]] then returns the nominal and
    the error of [V]. *)
Theorem X17_setitem_getitem (h : gmap loc pyval) (X V : uobj)
    (ns es : list float) (vn ve : pyval) (i : nat) :
  nom_at X <> err_at X ->
  h !! nom_at X = Some (NdArray ns) -> h !! err_at X = Some (NdArray es) ->
  length ns = length es -> (i < length ns)%nat ->
  h !! nom_at V = Some vn -> h !! err_at V = Some ve ->
  shape vn = [] -> shape ve = [] -> any_negative ve = false ->
  exists h' n e,
    elements vn = [n] /\ elements ve = [e] /\
    u_setitem h X (Z.of_nat i) (HUnc V) = (h', Ok tt) /\
    h' !! nom_at X = Some (NdArray (<[i := n]> ns)) /\
    h' !! err_at X = Some (NdArray (<[i := e]> es)) /\
    (forall l, l <> nom_at X -> l <> err_at X -> h' !! l = h !! l) /\
    h_getitem h' X (Z.of_nat i) = Ok {| _nom := NpFloat n; _err := NpFloat e |}.
Proof.
  intros Hne HXn HXe Hlen Hi HVn HVe Hsn Hse Hneg.
  assert (i < length es)%nat as Hie by lia.
  destruct (setitem_key_scalar ns i vn Hi Hsn) as (n & Hn & Hwn).
  destruct (setitem_key_scalar es i ve Hie Hse) as (e & He & Hwe).
  destruct (getitem_in_range ns i Hi) as (n0 & _ & Hget).
  assert (err_at V <> nom_at X) as HVX.
  { intros Heq. rewrite Heq, HXn in HVe. injection HVe as <-. discriminate Hse. }
  exists (<[err_at X := NdArray (<[i := e]> es)]>
            (<[nom_at X := NdArray (<[i := n]> ns)]> h)), n, e.
  split; [exact Hn |]. split; [exact He |].
  split; [| split; [| split; [| split]]].
  - unfold u_setitem. rewrite HXn, HVn, Hget, Hwn.
    rewrite !lookup_insert_ne by congruence. rewrite HXe, HVe, Hwe.
    reflexivity.
  - rewrite lookup_insert_ne by congruence. apply lookup_insert_eq.
  - apply lookup_insert_eq.
  - intros l Hl1 Hl2. rewrite !lookup_insert_ne by congruence. reflexivity.
  - unfold h_getitem, snapshot.
    rewrite lookup_insert_eq, lookup_insert_ne, lookup_insert_eq by congruence.
    cbn [bind]. unfold u_getitem. cbn [_nom _err].
    change (@v_getitem f64) with getitem.
    assert (i < length (<[i := n]> ns))%nat as Hi' by (rewrite length_insert; lia).
    assert (i < length (<[i := e]> es))%nat as Hie' by (rewrite length_insert; lia).
    destruct (getitem_in_range _ i Hi') as (n' & Hn' & ->).
    destruct (getitem_in_range _ i Hie') as (e' & He' & ->).
    rewrite list_lookup_insert_eq in Hn' by lia.
    rewrite list_lookup_insert_eq in He' by lia.
    injection Hn' as <-. injection He' as <-. cbn [bind].
    rewrite Uncertainty_new_NpFloat.
    apply any_negative_false in Hneg. simpl in Hneg. rewrite He in Hneg.
    inversion Hneg as [| ? ? Hlt _]; subst. simpl in Hlt. rewrite Hlt.
    reflexivity.
Qed.

Lemma X17_witness :
  exists h' n e,
    elements (PyFloat 9) = [n] /\ elements (PyFloat f0_1) = [e] /\
    u_setitem heap0 objX 1 (HUnc objV) = (h', Ok tt) /\
    h' !! nom_at objX = Some (NdArray (<[1%nat := n]> [1; 2])) /\
    h' !! err_at objX = Some (NdArray (<[1%nat := e]> [f0_1; f0_2])) /\
    (forall l, l <> nom_at objX -> l <> err_at objX -> h' !! l = heap0 !! l) /\
    h_getitem h' objX 1 = Ok {| _nom := NpFloat n; _err := NpFloat e |}.
Proof.
  apply (X17_setitem_getitem heap0 objX objV [1; 2] [f0_1; f0_2]
           (PyFloat 9) (PyFloat f0_1) 1%nat);
    first [reflexivity | discriminate | simpl; lia].
Defined.

(** X18: what [__setitem__] refuses, it refuses before it writes: a value
    that is not an instance raises [ValueError]; a key outside the nominal
    array raises [IndexError]; a Python float nominal raises [TypeError];
    in each case the heap is left as it was. *)
Theorem X18_setitem_rejects (h : gmap loc pyval) (X : uobj) (key : Z) :
  (forall v, u_setitem h X key (HPlain v) = (h, Raise ValueError)) /\
  (forall V ns, h !! nom_at X = Some (NdArray ns) -> is_Some (h !! nom_at V) ->
     (key < - Z.of_nat (length ns) \/ Z.of_nat (length ns) <= key)%Z ->
     u_setitem h X key (HUnc V) = (h, Raise IndexError)) /\
  (forall V x, h !! nom_at X = Some (PyFloat x) -> is_Some (h !! nom_at V) ->
     u_setitem h X key (HUnc V) = (h, Raise TypeError)).
Proof.
  split; [reflexivity |]. split.
  - intros V ns HXn [vn HVn] Hkey. unfold u_setitem.
    rewrite HXn, HVn, getitem_index_of, (index_of_out _ _ Hkey). reflexivity.
  - intros V x HXn [vn HVn]. unfold u_setitem. rewrite HXn, HVn. reflexivity.
Qed.

Lemma X18_witness :
  u_setitem heap0 objX 2 (HUnc objV) = (heap0, Raise IndexError) /\
  u_setitem heap0 objV 0 (HUnc objX) = (heap0, Raise TypeError).
Proof.
  split.
  - apply (proj1 (proj2 (X18_setitem_rejects heap0 objX 2)) objV [1; 2]);
      [reflexivity | eexists; reflexivity | simpl; lia].
  - apply (proj2 (proj2 (X18_setitem_rejects heap0 objV 0)) objX 9);
      [reflexivity | eexists; reflexivity].
Defined.

Lemma map_const_repeat {A B} (x : B) (xs : list A) :
  map (fun _ => x) xs = repeat x (length xs).
Proof. induction xs as [| a xs IH]; simpl; [| rewrite IH]; reflexivity. Qed.

(** [fill] on an array nominal sets every element of the nominal to
    the value, keeps its length, and changes no other object: the error
    array, when it is another array, keeps its old contents. *)
Lemma u_fill_array (h : gmap loc pyval) (X : uobj) (ns : list float) (x : float) :
  h !! nom_at X = Some (NdArray ns) ->
  exists h', u_fill h X x = (h', Ok tt) /\
    h' !! nom_at X = Some (NdArray (repeat x (length ns))) /\
    (forall l, l <> nom_at X -> h' !! l = h !! l).
Proof.
  intros HXn. exists (<[nom_at X := NdArray (repeat x (length ns))]> h).
  split; [| split].
  - unfold u_fill. rewrite HXn. simpl. rewrite map_const_repeat. reflexivity.
  - apply lookup_insert_eq.
  - intros l Hl. apply lookup_insert_ne. congruence.
Qed.


(** *** Witnesses of the statements over every library *)

Lemma X1_witness :
  Forall (fun a => num_lt0 a = false) (atleast_1d (error (UA [2; 3] [f0_1; f0_2]))).
Proof.
  apply (X1_returned_error_not_negative (L := f64)).
  apply (R_binary u_add (UA [1; 2] [f0_1; f0_2]) (OPlain (PyFloat 1)));
    [constructor | reflexivity].
Defined.

Lemma X2_witness :
  exists h', u_imul store0 1%positive (PVal (PyFloat 2)) = Ok (h', 1%positive) /\
    h' !! 1%positive = Some (UA [2; 4] [f0_1 * 2; f0_2 * 2]) /\
    (forall l, l <> 1%positive -> is_Some (store0 !! l) -> h' !! l = store0 !! l).
Proof.
  apply (X2_inplace_operators (L := f64) u_imul u_mul store0 1%positive
           (PVal (PyFloat 2)) (UA [1; 2] [f0_1; f0_2]) (OPlain (PyFloat 2))
           (UA [2; 4] [f0_1 * 2; f0_2 * 2]));
    first [constructor | reflexivity].
Defined.

Lemma X3_witness :
  error {| _nom := PyFloat (-2); _err := NpFloat (sqrt (f0_1 * f0_1 + f0_2 * f0_2)) |} =
  error {| _nom := PyFloat 4; _err := NpFloat (sqrt (f0_1 * f0_1 + f0_2 * f0_2)) |} /\
  quadrature (error (U 1 f0_1)) (error (U 3 f0_2)) =
  Ok (error {| _nom := PyFloat 4; _err := NpFloat (sqrt (f0_1 * f0_1 + f0_2 * f0_2)) |}).
Proof.
  apply (proj1 (X3_sub_error_as_add (L := f64) (U 1 f0_1) (U 3 f0_2) (PyFloat 0)));
    reflexivity.
Defined.

(** *** Zero nominals and zero divisors *)

Lemma Prim2SF_nan (x : float) : Prim2SF x = S754_nan -> x = nan.
Proof. intros H. apply Prim2SF_inj. rewrite H. reflexivity. Qed.

Lemma float_mul_nan (x : float) : x * nan = nan.
Proof.
  apply Prim2SF_nan. rewrite mul_spec.
  change (Prim2SF nan) with S754_nan.
  destruct (Prim2SF x) as [s | s | | s m e]; reflexivity.
Qed.

Lemma float_nan_add (x : float) : nan + x = nan.
Proof.
  apply Prim2SF_nan. rewrite add_spec.
  change (Prim2SF nan) with S754_nan. reflexivity.
Qed.

(** The relative error of a Python float instance: the quotient when the
    nominal is not zero, NaN when it is. *)
Lemma rel_PyFloat (x e : float) :
  rel (U x e) = Ok (PyFloat (if x =? 0 then nan else e / x)).
Proof.
  unfold rel, relative, U. cbn. destruct (x =? 0) eqn:Hx; cbn.
  - reflexivity.
  - unfold py_truediv. rewrite Hx. reflexivity.
Qed.

(** X19: an instance of Python floats whose nominal is zero has the
    relative error NaN, and its product and its quotient with an instance
    of Python floats, when they are returned, carry the error NaN. *)
Theorem X19_zero_nominal_nan (x ex y ey : float) (P : Uncertainty) :
  (x =? 0) = true ->
  rel (U x ex) = Ok (PyFloat nan) /\
  (u_mul (U x ex) (OUnc (U y ey)) = Ok P -> error P = NpFloat nan) /\
  (u_truediv (U x ex) (OUnc (U y ey)) = Ok P -> error P = NpFloat nan).
Proof.
  intros Hx.
  assert (rel (U x ex) = Ok (PyFloat nan)) as Hrel
    by (rewrite rel_PyFloat, Hx; reflexivity).
  assert (rel_quadrature (U x ex) (U y ey) = Raise OverflowError \/
          rel_quadrature (U x ex) (U y ey) = Ok (NpFloat nan)) as Hq.
  { unfold rel_quadrature. rewrite Hrel, (rel_PyFloat y ey). cbn.
    destruct (py_square _) as [s | ex'] eqn:Hs; cbn.
    - right. rewrite float_nan_add. reflexivity.
    - left. unfold py_square in Hs. destruct (_ && _); congruence. }
  split; [exact Hrel |]. split.
  - intros H. unfold u_mul in H. cbn [_nom U] in H. cbn in H.
    destruct Hq as [Hr | Hr]; rewrite Hr in H; cbn in H; [discriminate |].
    rewrite float_mul_nan in H.
    apply Uncertainty_new_Ok in H as (_ & _ & ->). reflexivity.
  - intros H. unfold u_truediv in H. cbn [_nom U] in H.
    change (@v_truediv f64 (PyFloat x) (PyFloat y))
      with (r <- py_truediv x y ;; Ok (PyFloat r)) in H.
    destruct (py_truediv x y) as [m | ex'] eqn:Hm; cbn [bind] in H; [| discriminate].
    destruct Hq as [Hr | Hr]; rewrite Hr in H; cbn in H; [discriminate |].
    rewrite float_mul_nan in H.
    apply Uncertainty_new_Ok in H as (_ & _ & ->). reflexivity.
Qed.

Lemma X19_witness :
  rel (U 0 f0_1) = Ok (PyFloat nan) /\
  error {| _nom := PyFloat 0; _err := NpFloat nan |} = NpFloat nan.
Proof.
  destruct (X19_zero_nominal_nan 0 f0_1 3 f0_2
              {| _nom := PyFloat 0; _err := NpFloat nan |} eq_refl)
    as (Hrel & Hmul & _).
  split; [exact Hrel | apply Hmul; reflexivity].
Defined.

(** X20: on a Python float nominal, dividing, floor-dividing or taking the
    modulo by a zero Python float, plain or the nominal of an instance,
    raises [ZeroDivisionError]. *)
Theorem X20_zero_divisor (x z : float) (e : pyval) (Y : Uncertainty) :
  (z =? 0) = true ->
  let X := {| _nom := PyFloat x; _err := e |} in
  (u_truediv X (OPlain (PyFloat z)) = Raise ZeroDivisionError /\
   u_floordiv X (OPlain (PyFloat z)) = Raise ZeroDivisionError /\
   u_mod X (OPlain (PyFloat z)) = Raise ZeroDivisionError) /\
  (_nom Y = PyFloat z ->
   u_truediv X (OUnc Y) = Raise ZeroDivisionError /\
   u_floordiv X (OUnc Y) = Raise ZeroDivisionError /\
   u_mod X (OUnc Y) = Raise ZeroDivisionError).
Proof.
  intros Hz X. split; [| intros HY];
    unfold u_truediv, u_floordiv, u_mod; rewrite ?HY; cbn;
    unfold py_truediv, py_floordiv, py_mod; rewrite Hz; auto.
Qed.

Lemma X20_witness :
  u_truediv (U 1 f0_1) (OPlain (PyFloat 0)) = Raise ZeroDivisionError /\
  u_floordiv (U 1 f0_1) (OPlain (PyFloat 0)) = Raise ZeroDivisionError /\
  u_mod (U 1 f0_1) (OPlain (PyFloat 0)) = Raise ZeroDivisionError.
Proof.
  apply (proj1 (X20_zero_divisor 1 0 (PyFloat f0_1) (U 1 f0_1) eq_refl)).
Defined.

Lemma float_mul_comm (x y : float) : x * y = y * x.
Proof.
  apply Prim2SF_inj. rewrite !mul_spec.
  destruct (Prim2SF x) as [sx | sx | | sx mx ex],
           (Prim2SF y) as [sy | sy | | sy my ey];
    try destruct sx; try destruct sy; try reflexivity;
    unfold SF64mul, SFmul; rewrite (Pos.mul_comm my mx), (Z.add_comm ey ex);
    reflexivity.
Qed.

Lemma rel_quadrature_PyFloat (x ex y ey : float) :
  rel_quadrature (U x ex) (U y ey) =
    quadrature (PyFloat (if x =? 0 then nan else ex / x))
               (PyFloat (if y =? 0 then nan else ey / y)).
Proof.
  unfold rel_quadrature, quadrature. rewrite !rel_PyFloat. cbn [bind].
  destruct (v_square _); reflexivity.
Qed.

(** X21: the product of two instances of Python floats does not depend on
    their order: the same instance is returned, or the same exception
    raised, whichever of the two is [self]. *)
Theorem X21_mul_commutative (x ex y ey : float) :
  u_mul (U x ex) (OUnc (U y ey)) = u_mul (U y ey) (OUnc (U x ex)).
Proof.
  unfold u_mul. rewrite !rel_quadrature_PyFloat.
  rewrite (quadrature_comm (PyFloat (if y =? 0 then nan else ey / y))).
  cbn [_nom U]. cbn. rewrite (float_mul_comm y x). reflexivity.
Qed.
